(** * Image annotation tool: the annotation session and its history

    A shallow embedding of the two versions of the [App] component:

    - [App]        : [src/src/App.js], drawing and export only;
    - [AppHistory] : [src/unnamed/part_000], the same component with the
                     undo and redo stacks and the keyboard shortcuts.

    The component state is the tuple of [useState] cells.  An event handler
    reads the cells of the render it was created in and queues writes; the
    next render sees all of them.  A handler is therefore a function from
    the state of one render to the state of the next one: every value it
    uses is read from its argument, every [setX] becomes a field update of
    the result.  React renders after each discrete event (click, mouse,
    key), so a run of the component is a fold of the handlers over the
    events. *)

From Stdlib Require Import ZArith List String Bool Lia.
From Stdlib Require Import Ascii DecimalString DecimalZ DecimalPos.
Import ListNotations.

Local Open Scope string_scope.
Local Open Scope list_scope.
Local Set Warnings "-register-all".

(** ** JavaScript values used by the component *)

(** [startPos]: the object [{ x, y }]. *)
Module Pos.
Record t : Type := mk { x : Z; y : Z }.
End Pos.

(** An annotation: the object [{ x, y, width, height, label }]. *)
Module Box.
Record t : Type := mk { x : Z; y : Z; width : Z; height : Z; label : string }.
End Box.

(** The part of a mouse event the handlers read: [e.nativeEvent]. *)
Record MouseEvent : Type := { offsetX : Z; offsetY : Z }.

(** A picked file, with the text [FileReader.readAsDataURL] produces for it. *)
Record File : Type := { name : string; type : string; base64 : string }.

Definition readAsDataURL (f : File) : string :=
  "data:" ++ type f ++ ";base64," ++ base64 f.

(** Truthiness of a value that is [null] or a string: [imageSrc]. *)
Definition truthy_string (v : option string) : bool :=
  match v with
  | Some (String _ _) => true
  | Some EmptyString => false
  | None => false
  end.

(** Truthiness of a value that is [null]/[undefined] or an object. *)
Definition truthy_object {A : Type} (v : option A) : bool :=
  match v with
  | Some _ => true
  | None => false
  end.

(** *** Arrays *)

(** [a[0]], [undefined] on the empty array. *)
Definition first {A : Type} (a : list A) : option A :=
  match a with
  | [] => None
  | v :: _ => Some v
  end.

(** [[...a, v]] *)
Definition spread_then {A : Type} (a : list A) (v : A) : list A := a ++ [v].

(** [[v, ...a]] *)
Definition then_spread {A : Type} (v : A) (a : list A) : list A := v :: a.

(** [a.pop()]: the removed last element and the array as it is afterwards. *)
Definition pop {A : Type} (a : list A) : option A * list A :=
  match rev a with
  | [] => (None, [])
  | v :: r => (Some v, rev r)
  end.

(** [a.shift()]: the removed first element and the array as it is afterwards. *)
Definition shift {A : Type} (a : list A) : option A * list A :=
  match a with
  | [] => (None, [])
  | v :: r => (Some v, r)
  end.

(** *** The exported object *)

(** [annotationData = { filename, annotations }] of [handleDownload]. *)
Module AnnotationData.
Record t : Type := mk { filename : string; annotations : list Box.t }.
End AnnotationData.

(** The object tree [JSON.stringify] walks: properties in creation order. *)
Inductive json : Type :=
| JNumber (n : Z)
| JString (s : string)
| JArray (items : list json)
| JObject (props : list (string * json)).

Definition json_of_box (b : Box.t) : json :=
  JObject [ ("x", JNumber (Box.x b));
            ("y", JNumber (Box.y b));
            ("width", JNumber (Box.width b));
            ("height", JNumber (Box.height b));
            ("label", JString (Box.label b)) ].

Definition json_of_annotationData (d : AnnotationData.t) : json :=
  JObject [ ("filename", JString (AnnotationData.filename d));
            ("annotations", JArray (map json_of_box (AnnotationData.annotations d))) ].

(** [newBox] of [handleMouseMove]. *)
Definition newBox (startPos : Pos.t) (e : MouseEvent) (currentLabel : string) : Box.t :=
  {| Box.x := Pos.x startPos;
     Box.y := Pos.y startPos;
     Box.width := offsetX e - Pos.x startPos;
     Box.height := offsetY e - Pos.y startPos;
     Box.label := currentLabel |}.

(** ** [src/unnamed/part_000]: the component with history *)

Module AppHistory.

Record State : Type := {
  imageSrc : option string;
  annotations : list Box.t;
  currentLabel : string;
  isDrawing : bool;
  startPos : Pos.t;
  currentBox : option Box.t;
  undoStack : list (list Box.t);
  redoStack : list (list Box.t)
}.

(** The [useState] initial values. *)
Definition init : State :=
  {| imageSrc := None;
     annotations := [];
     currentLabel := "b";
     isDrawing := false;
     startPos := Pos.mk 0 0;
     currentBox := None;
     undoStack := [];
     redoStack := [] |}.

Definition setImageSrc (v : option string) (s : State) : State :=
  {| imageSrc := v; annotations := annotations s; currentLabel := currentLabel s;
     isDrawing := isDrawing s; startPos := startPos s; currentBox := currentBox s;
     undoStack := undoStack s; redoStack := redoStack s |}.

Definition setAnnotations (v : list Box.t) (s : State) : State :=
  {| imageSrc := imageSrc s; annotations := v; currentLabel := currentLabel s;
     isDrawing := isDrawing s; startPos := startPos s; currentBox := currentBox s;
     undoStack := undoStack s; redoStack := redoStack s |}.

Definition setCurrentLabel (v : string) (s : State) : State :=
  {| imageSrc := imageSrc s; annotations := annotations s; currentLabel := v;
     isDrawing := isDrawing s; startPos := startPos s; currentBox := currentBox s;
     undoStack := undoStack s; redoStack := redoStack s |}.

Definition setIsDrawing (v : bool) (s : State) : State :=
  {| imageSrc := imageSrc s; annotations := annotations s; currentLabel := currentLabel s;
     isDrawing := v; startPos := startPos s; currentBox := currentBox s;
     undoStack := undoStack s; redoStack := redoStack s |}.

Definition setStartPos (v : Pos.t) (s : State) : State :=
  {| imageSrc := imageSrc s; annotations := annotations s; currentLabel := currentLabel s;
     isDrawing := isDrawing s; startPos := v; currentBox := currentBox s;
     undoStack := undoStack s; redoStack := redoStack s |}.

Definition setCurrentBox (v : option Box.t) (s : State) : State :=
  {| imageSrc := imageSrc s; annotations := annotations s; currentLabel := currentLabel s;
     isDrawing := isDrawing s; startPos := startPos s; currentBox := v;
     undoStack := undoStack s; redoStack := redoStack s |}.

Definition setUndoStack (v : list (list Box.t)) (s : State) : State :=
  {| imageSrc := imageSrc s; annotations := annotations s; currentLabel := currentLabel s;
     isDrawing := isDrawing s; startPos := startPos s; currentBox := currentBox s;
     undoStack := v; redoStack := redoStack s |}.

Definition setRedoStack (v : list (list Box.t)) (s : State) : State :=
  {| imageSrc := imageSrc s; annotations := annotations s; currentLabel := currentLabel s;
     isDrawing := isDrawing s; startPos := startPos s; currentBox := currentBox s;
     undoStack := undoStack s; redoStack := v |}.

(** [handleImageUpload] writes no cell: it hands the first picked file, if
    there is one, to a [FileReader].  The result is the state it leaves and
    the file whose reading it started. *)
Definition handleImageUpload (files : list File) (s : State) : State * option File :=
  match first files with
  | Some file => (s, Some file)
  | None => (s, None)
  end.

(** The [onload] callback installed on the reader, run when [file] has
    been read: [reader.result] is then its data URL. *)
Definition onload (file : File) (s : State) : State :=
  setImageSrc (Some (readAsDataURL file)) s.

Definition handleMouseDown (e : MouseEvent) (s : State) : State :=
  if negb (truthy_string (imageSrc s)) then s
  else setStartPos (Pos.mk (offsetX e) (offsetY e)) (setIsDrawing true s).

Definition handleMouseMove (e : MouseEvent) (s : State) : State :=
  if negb (isDrawing s) then s
  else setCurrentBox (Some (newBox (startPos s) e (currentLabel s))) s.

(** The first branch is the body of [if (isDrawing && currentBox)].  The
    updater given to [setAnnotations] receives the list of the render
    ([prev]) and queues the two stack writes itself; [undoStack] is the
    handler's own. *)
Definition handleMouseUp (s : State) : State :=
  match isDrawing s, currentBox s with
  | true, Some box =>
      let prev := annotations s in
      let newAnnotations := spread_then prev box in
      setIsDrawing false
        (setCurrentBox None
           (setAnnotations newAnnotations
              (setRedoStack []
                 (setUndoStack (spread_then (undoStack s) prev) s))))
  | _, _ => setIsDrawing false s
  end.

Definition handleLabelChange (value : string) (s : State) : State :=
  setCurrentLabel value s.

Definition handleDownload (s : State) : AnnotationData.t :=
  {| AnnotationData.filename := "annotated_image.jpg";
     AnnotationData.annotations := annotations s |}.

(** [undoStack.pop()] changes the array held by the state cell in place;
    [setUndoStack(undoStack)] then stores that same array, so the next
    render sees the stack without its last element. *)
Definition handleUndo (s : State) : State :=
  if (0 <? List.length (undoStack s))%nat then
    match pop (undoStack s) with
    | (Some lastState, popped) =>
        setUndoStack popped
          (setAnnotations lastState
             (setRedoStack (then_spread (annotations s) (redoStack s)) s))
    | (None, _) => s
    end
  else s.

(** [redoStack.shift()] changes the state's array in place in the same way. *)
Definition handleRedo (s : State) : State :=
  if (0 <? List.length (redoStack s))%nat then
    match shift (redoStack s) with
    | (Some nextState, shifted) =>
        setRedoStack shifted
          (setAnnotations nextState
             (setUndoStack (spread_then (undoStack s) (annotations s)) s))
    | (None, _) => s
    end
  else s.

(** The [keydown] listener of the effect.  The effect is re-installed
    whenever [undoStack], [redoStack] or [annotations] change, which are
    the only cells [handleUndo] and [handleRedo] read, so the listener
    always runs the handlers of the current render. *)
Definition handleKeyDown (key : string) (ctrlKey : bool) (s : State) : State :=
  if key =? "1" then setCurrentLabel "b" s
  else if key =? "2" then setCurrentLabel "i" s
  else if key =? "3" then setCurrentLabel "s" s
  else if key =? "4" then setCurrentLabel "t" s
  else if key =? "5" then setCurrentLabel "img" s
  else if key =? "6" then setCurrentLabel "l" s
  else if key =? "z" then (if ctrlKey then handleUndo s else s)
  else if key =? "y" then (if ctrlKey then handleRedo s else s)
  else s.

(** The events of the page and the handler each one is wired to.
    [ReaderLoad] is the reader finishing a file. *)
Inductive Event : Type :=
| FileChange (files : list File)
| ReaderLoad (file : File)
| MouseDown (e : MouseEvent)
| MouseMove (e : MouseEvent)
| MouseUp
| LabelChange (value : string)
| KeyDown (key : string) (ctrlKey : bool)
| ClickUndo
| ClickRedo.

Definition step (s : State) (ev : Event) : State :=
  match ev with
  | FileChange files => fst (handleImageUpload files s)
  | ReaderLoad file => onload file s
  | MouseDown e => handleMouseDown e s
  | MouseMove e => handleMouseMove e s
  | MouseUp => handleMouseUp s
  | LabelChange value => handleLabelChange value s
  | KeyDown key ctrlKey => handleKeyDown key ctrlKey s
  | ClickUndo => handleUndo s
  | ClickRedo => handleRedo s
  end.

Definition run (evs : list Event) (s : State) : State := fold_left step evs s.

(** [getColorForLabel] of this version: six cases and a default. *)
Definition getColorForLabel (label : string) : string :=
  if label =? "b" then "border-red-500"
  else if label =? "i" then "border-green-500"
  else if label =? "s" then "border-yellow-500"
  else if label =? "t" then "border-blue-500"
  else if label =? "img" then "border-purple-500"
  else if label =? "l" then "border-pink-500"
  else "border-gray-500".

End AppHistory.

(** ** [src/src/App.js]: the component without history *)

Module App.

Record State : Type := {
  imageSrc : option string;
  annotations : list Box.t;
  currentLabel : string;
  isDrawing : bool;
  startPos : Pos.t;
  currentBox : option Box.t
}.

Definition init : State :=
  {| imageSrc := None;
     annotations := [];
     currentLabel := "b";
     isDrawing := false;
     startPos := Pos.mk 0 0;
     currentBox := None |}.

Definition setImageSrc (v : option string) (s : State) : State :=
  {| imageSrc := v; annotations := annotations s; currentLabel := currentLabel s;
     isDrawing := isDrawing s; startPos := startPos s; currentBox := currentBox s |}.

Definition setAnnotations (v : list Box.t) (s : State) : State :=
  {| imageSrc := imageSrc s; annotations := v; currentLabel := currentLabel s;
     isDrawing := isDrawing s; startPos := startPos s; currentBox := currentBox s |}.

Definition setCurrentLabel (v : string) (s : State) : State :=
  {| imageSrc := imageSrc s; annotations := annotations s; currentLabel := v;
     isDrawing := isDrawing s; startPos := startPos s; currentBox := currentBox s |}.

Definition setIsDrawing (v : bool) (s : State) : State :=
  {| imageSrc := imageSrc s; annotations := annotations s; currentLabel := currentLabel s;
     isDrawing := v; startPos := startPos s; currentBox := currentBox s |}.

Definition setStartPos (v : Pos.t) (s : State) : State :=
  {| imageSrc := imageSrc s; annotations := annotations s; currentLabel := currentLabel s;
     isDrawing := isDrawing s; startPos := v; currentBox := currentBox s |}.

Definition setCurrentBox (v : option Box.t) (s : State) : State :=
  {| imageSrc := imageSrc s; annotations := annotations s; currentLabel := currentLabel s;
     isDrawing := isDrawing s; startPos := startPos s; currentBox := v |}.

Definition handleImageUpload (files : list File) (s : State) : State * option File :=
  match first files with
  | Some file => (s, Some file)
  | None => (s, None)
  end.

Definition onload (file : File) (s : State) : State :=
  setImageSrc (Some (readAsDataURL file)) s.

Definition handleMouseDown (e : MouseEvent) (s : State) : State :=
  if negb (truthy_string (imageSrc s)) then s
  else setStartPos (Pos.mk (offsetX e) (offsetY e)) (setIsDrawing true s).

Definition handleMouseMove (e : MouseEvent) (s : State) : State :=
  if negb (isDrawing s) then s
  else setCurrentBox (Some (newBox (startPos s) e (currentLabel s))) s.

Definition handleMouseUp (s : State) : State :=
  match isDrawing s, currentBox s with
  | true, Some box =>
      let prev := annotations s in
      setIsDrawing false (setCurrentBox None (setAnnotations (spread_then prev box) s))
  | _, _ => setIsDrawing false s
  end.

Definition handleLabelChange (value : string) (s : State) : State :=
  setCurrentLabel value s.

Definition handleDownload (s : State) : AnnotationData.t :=
  {| AnnotationData.filename := "annotated_image.jpg";
     AnnotationData.annotations := annotations s |}.

Inductive Event : Type :=
| FileChange (files : list File)
| ReaderLoad (file : File)
| MouseDown (e : MouseEvent)
| MouseMove (e : MouseEvent)
| MouseUp
| LabelChange (value : string).

Definition step (s : State) (ev : Event) : State :=
  match ev with
  | FileChange files => fst (handleImageUpload files s)
  | ReaderLoad file => onload file s
  | MouseDown e => handleMouseDown e s
  | MouseMove e => handleMouseMove e s
  | MouseUp => handleMouseUp s
  | LabelChange value => handleLabelChange value s
  end.

Definition run (evs : list Event) (s : State) : State := fold_left step evs s.

(** [getColorForLabel] of this version: nine cases and a default. *)
Definition getColorForLabel (label : string) : string :=
  if label =? "b" then "border-red-500"
  else if label =? "i" then "border-green-500"
  else if label =? "s" then "border-blue-500"
  else if label =? "t" then "border-orange-500"
  else if label =? "img" then "border-purple-500"
  else if label =? "l" then "border-yellow-500"
  else if label =? "li" then "border-pink-500"
  else if label =? "active-i" then "border-teal-500"
  else if label =? "active-s" then "border-indigo-500"
  else "border-black".

End App.

(** ** Gestures and scenarios *)

(** A completed drag: the button goes down at [down], the pointer moves
    through [path] and a last time to [stop], and the button is released. *)
Record Drag : Type := { down : MouseEvent; path : list MouseEvent; stop : MouseEvent }.

(** The box a completed drag leaves in [currentBox] under label [l]. *)
Definition drag_box (l : string) (d : Drag) : Box.t :=
  newBox (Pos.mk (offsetX (down d)) (offsetY (down d))) (stop d) l.

Definition history_drag (d : Drag) : list AppHistory.Event :=
  AppHistory.MouseDown (down d)
    :: map AppHistory.MouseMove (path d)
    ++ [AppHistory.MouseMove (stop d); AppHistory.MouseUp].

Definition plain_drag (d : Drag) : list App.Event :=
  App.MouseDown (down d)
    :: map App.MouseMove (path d)
    ++ [App.MouseMove (stop d); App.MouseUp].

(** Picking a file and the reader finishing it. *)
Definition history_load (f : File) : list AppHistory.Event :=
  [AppHistory.FileChange [f]; AppHistory.ReaderLoad f].

Definition plain_load (f : File) : list App.Event :=
  [App.FileChange [f]; App.ReaderLoad f].

(** Events that can only change the selected label: the [select] control
    and every key press that is not Ctrl+Z or Ctrl+Y. *)
Definition label_event (ev : AppHistory.Event) : bool :=
  match ev with
  | AppHistory.LabelChange _ => true
  | AppHistory.KeyDown key ctrlKey => negb (ctrlKey && ((key =? "z") || (key =? "y")))
  | _ => false
  end.

Definition plain_label_event (ev : App.Event) : bool :=
  match ev with
  | App.LabelChange _ => true
  | _ => false
  end.

(** The history version seen without its stacks. *)
Definition forget (s : AppHistory.State) : App.State :=
  {| App.imageSrc := AppHistory.imageSrc s;
     App.annotations := AppHistory.annotations s;
     App.currentLabel := AppHistory.currentLabel s;
     App.isDrawing := AppHistory.isDrawing s;
     App.startPos := AppHistory.startPos s;
     App.currentBox := AppHistory.currentBox s |}.

(** An event of the plain page, as an event of the page with history. *)
Definition lift (ev : App.Event) : AppHistory.Event :=
  match ev with
  | App.FileChange files => AppHistory.FileChange files
  | App.ReaderLoad file => AppHistory.ReaderLoad file
  | App.MouseDown e => AppHistory.MouseDown e
  | App.MouseMove e => AppHistory.MouseMove e
  | App.MouseUp => AppHistory.MouseUp
  | App.LabelChange value => AppHistory.LabelChange value
  end.

(** Scenario A of the specification: load a file, drag from (10,10) to
    (110,60) with the label of the "Button" option, release. *)
Definition scenarioA (f : File) : list AppHistory.Event :=
  [ AppHistory.FileChange [f];
    AppHistory.ReaderLoad f;
    AppHistory.LabelChange "b";
    AppHistory.MouseDown {| offsetX := 10; offsetY := 10 |};
    AppHistory.MouseMove {| offsetX := 110; offsetY := 60 |};
    AppHistory.MouseUp ].

Definition plain_scenarioA (f : File) : list App.Event :=
  [ App.FileChange [f];
    App.ReaderLoad f;
    App.LabelChange "b";
    App.MouseDown {| offsetX := 10; offsetY := 10 |};
    App.MouseMove {| offsetX := 110; offsetY := 60 |};
    App.MouseUp ].

Definition scenarioA_document : json :=
  JObject [ ("filename", JString "annotated_image.jpg");
            ("annotations",
             JArray [ JObject [ ("x", JNumber 10); ("y", JNumber 10);
                                ("width", JNumber 100); ("height", JNumber 50);
                                ("label", JString "b") ] ]) ].

(** Sample values for the examples. *)
Definition photo : File :=
  {| name := "screenshot.png"; type := "image/png"; base64 := "iVBORw0KGgo=" |}.

Definition box1 : Box.t := Box.mk 10 10 100 50 "b".
Definition box2 : Box.t := Box.mk 50 50 (-40) (-40) "i".

Definition at_ (x y : Z) : MouseEvent := {| offsetX := x; offsetY := y |}.

(** Two boxes are committed and both commits are undone. *)
Definition two_commits : AppHistory.State :=
  AppHistory.run
    (history_load photo
       ++ history_drag {| down := at_ 10 10; path := []; stop := at_ 110 60 |}
       ++ AppHistory.LabelChange "i"
       :: history_drag {| down := at_ 50 50; path := []; stop := at_ 10 10 |})
    AppHistory.init.

Definition first_undo : AppHistory.State := AppHistory.step two_commits AppHistory.ClickUndo.
Definition second_undo : AppHistory.State := AppHistory.step first_undo AppHistory.ClickUndo.

(** A press at (5,5) in a loaded page, before any move or release. *)
Definition pressed : AppHistory.State :=
  AppHistory.run (history_load photo ++ [AppHistory.MouseDown (at_ 5 5)])
    AppHistory.init.

Definition plain_pressed : App.State :=
  App.run (plain_load photo ++ [App.MouseDown (at_ 5 5)]) App.init.

(** One box committed, a second one drawn and not yet released. *)
Definition dragging : AppHistory.State :=
  AppHistory.run
    (history_load photo
       ++ history_drag {| down := at_ 10 10; path := []; stop := at_ 110 60 |}
       ++ [AppHistory.KeyDown "2" false;
           AppHistory.MouseDown (at_ 50 50);
           AppHistory.MouseMove (at_ 10 10)])
    AppHistory.init.

(** The page with an image loaded and nothing drawn. *)
Definition loaded : AppHistory.State :=
  AppHistory.run (history_load photo) AppHistory.init.

Definition three_drags : list Drag :=
  [ {| down := at_ 10 10; path := []; stop := at_ 110 60 |};
    {| down := at_ 50 50; path := [at_ 40 45; at_ 20 30]; stop := at_ 10 10 |};
    {| down := at_ 7 7; path := []; stop := at_ 7 7 |} ].

(** Scenario C of the specification: one commit, an undo, a new commit. *)
Definition scenarioC : list AppHistory.Event :=
  history_load photo
    ++ history_drag {| down := at_ 10 10; path := []; stop := at_ 110 60 |}
    ++ AppHistory.ClickUndo
    :: AppHistory.LabelChange "i"
    :: history_drag {| down := at_ 50 50; path := []; stop := at_ 10 10 |}.

(** ** The shape of the history *)

(** The lists [a] went through while it was built one box at a time:
    [[]], its first box alone, ... up to [a] without its last box. *)
Definition proper_prefixes (a : list Box.t) : list (list Box.t) :=
  map (fun k => firstn k a) (seq 0 (List.length a)).

(** Each snapshot of [l] is the one before it ([prev] for the first) with
    one more box at the end. *)
Fixpoint grows_by_one (prev : list Box.t) (l : list (list Box.t)) : Prop :=
  match l with
  | [] => True
  | a :: r => (exists b, a = prev ++ [b]) /\ grows_by_one a r
  end.

(** The undo stack holds the proper prefixes of the list, shortest first;
    the redo stack continues the list one box at a time from its front. *)
Definition history_shape (s : AppHistory.State) : Prop :=
  AppHistory.undoStack s = proper_prefixes (AppHistory.annotations s) /\
  grows_by_one (AppHistory.annotations s) (AppHistory.redoStack s).

(** The events through which the list or a stack can change: a release,
    the two history buttons and their shortcuts. *)
Definition edits (ev : AppHistory.Event) : bool :=
  match ev with
  | AppHistory.MouseUp => true
  | AppHistory.ClickUndo => true
  | AppHistory.ClickRedo => true
  | AppHistory.KeyDown key ctrlKey => ctrlKey && ((key =? "z") || (key =? "y"))
  | _ => false
  end.


(** Three boxes drawn, then two of them undone. *)
Definition three_then_back : AppHistory.State :=
  AppHistory.run
    (history_load photo
       ++ List.concat (map history_drag three_drags)
       ++ [AppHistory.ClickUndo; AppHistory.KeyDown "z" true])
    AppHistory.init.

(** A drag whose release never reached the page: a press and a move. *)
Definition left_over : AppHistory.State :=
  AppHistory.run
    (history_load photo ++ [AppHistory.MouseDown (at_ 10 10); AppHistory.MouseMove (at_ 30 40)])
    AppHistory.init.

(** The events that led to [three_then_back]. *)
Definition three_then_back_events : list AppHistory.Event :=
  history_load photo
    ++ List.concat (map history_drag three_drags)
    ++ [AppHistory.ClickUndo; AppHistory.KeyDown "z" true].

(** A release in the plain page. *)
Definition plain_release (ev : App.Event) : bool :=
  match ev with
  | App.MouseUp => true
  | _ => false
  end.

(** ** The label control *)

(** The [option] elements of the [select], the same in both versions:
    value and caption. *)
Definition label_options : list (string * string) :=
  [ ("b", "Button"); ("i", "Input"); ("s", "Select"); ("t", "Text");
    ("img", "Image"); ("l", "Link"); ("li", "List");
    ("active-i", "Active Input"); ("active-s", "Active Select") ].

(** [value] is the value of one of the options. *)
Definition offered (value : string) : bool :=
  existsb (fun o => fst o =? value) label_options.

(** A change event of the [select] carries the value of one of its
    options; the other events carry no label. *)
Definition from_select (ev : AppHistory.Event) : bool :=
  match ev with
  | AppHistory.LabelChange value => offered value
  | _ => true
  end.

Definition box_offered (b : Box.t) : bool := offered (Box.label b).

(** Every label in the state is one the control offers. *)
Definition labels_offered (s : AppHistory.State) : Prop :=
  offered (AppHistory.currentLabel s) = true /\
  (forall b, AppHistory.currentBox s = Some b -> box_offered b = true) /\
  forallb box_offered (AppHistory.annotations s) = true /\
  forallb (forallb box_offered) (AppHistory.undoStack s) = true /\
  forallb (forallb box_offered) (AppHistory.redoStack s) = true.

(** The key of the digit [d] (for d from 0 to 9). *)
Definition digit_key (d : nat) : string :=
  String (Ascii.ascii_of_nat (48 + d)) EmptyString.

(** The keys with a [case] of their own in the [keydown] listener that
    select a label. *)
Definition label_keys : list string := ["1"; "2"; "3"; "4"; "5"; "6"].

(** ** What the component renders *)

(** The text of an integer in a template literal and in JSON. *)
Definition toString (n : Z) : string := NilZero.string_of_int (Z.to_int n).

(** The [style] object of a box. *)
Module Style.
Record t : Type := mk { left : string; top : string; width : string; height : string }.
End Style.

Definition box_style (box : Box.t) : Style.t :=
  {| Style.left := toString (Box.x box) ++ "px";
     Style.top := toString (Box.y box) ++ "px";
     Style.width := toString (Box.width box) ++ "px";
     Style.height := toString (Box.height box) ++ "px" |}.

(** The elements the workspace can hold: the image, and a bordered
    rectangle with a caption in it. *)
Inductive Node : Type :=
| Img (src alt className : string)
| Rect (key : option nat) (className : string) (style : Style.t)
       (captionClassName caption : string).

(** [a.map((v, index) => f(v, index))], with [k] the index of the first
    element. *)
Fixpoint map_from {A B : Type} (f : A -> nat -> B) (k : nat) (a : list A) : list B :=
  match a with
  | [] => []
  | v :: r => f v k :: map_from f (S k) r
  end.

(** The element of a committed box; the two versions differ in the
    colours. *)
Definition annotation_node (getColorForLabel : string -> string)
  (box : Box.t) (index : nat) : Node :=
  Rect (Some index)
       ("absolute border-2 " ++ getColorForLabel (Box.label box))
       (box_style box)
       "bg-black text-white text-xs px-1"
       (Box.label box).

(** The element of the box being drawn: its caption is [currentLabel]. *)
Definition drawing_node (currentBox : Box.t) (currentLabel : string) : Node :=
  Rect None
       "absolute border-2 border-blue-500"
       (box_style currentBox)
       "bg-blue-500 text-white text-xs px-1"
       currentLabel.

Definition image_nodes (imageSrc : option string) : list Node :=
  match imageSrc with
  | Some src =>
      if truthy_string imageSrc
      then [Img src "Annotation workspace" "absolute w-full h-full object-contain"]
      else []
  | None => []
  end.

Definition drawing_nodes (isDrawing : bool) (currentBox : option Box.t)
  (currentLabel : string) : list Node :=
  match isDrawing, currentBox with
  | true, Some box => [drawing_node box currentLabel]
  | _, _ => []
  end.

(** The children of the workspace [div], in the order of the JSX. *)
Definition history_workspace (s : AppHistory.State) : list Node :=
  image_nodes (AppHistory.imageSrc s)
    ++ map_from (annotation_node AppHistory.getColorForLabel) 0 (AppHistory.annotations s)
    ++ drawing_nodes (AppHistory.isDrawing s) (AppHistory.currentBox s)
         (AppHistory.currentLabel s).

Definition plain_workspace (s : App.State) : list Node :=
  image_nodes (App.imageSrc s)
    ++ map_from (annotation_node App.getColorForLabel) 0 (App.annotations s)
    ++ drawing_nodes (App.isDrawing s) (App.currentBox s) (App.currentLabel s).

(** The elements rendered with a [key]: those of the committed boxes. *)
Definition keyed (n : Node) : bool :=
  match n with
  | Rect (Some _) _ _ _ _ => true
  | _ => false
  end.

Definition is_digit (c : Ascii.ascii) : bool :=
  (48 <=? Ascii.nat_of_ascii c)%nat && (Ascii.nat_of_ascii c <=? 57)%nat.

(** [r] does not go on with a digit. *)
Definition ends_number (r : string) : Prop :=
  match r with
  | EmptyString => True
  | String c _ => is_digit c = false
  end.

(** ** The downloaded text *)

(** Texts are strings of bytes: the UTF-8 form of the JavaScript string.
    For well-formed text, [JSON.stringify] and [encodeURIComponent] work
    byte by byte as below: bytes from 128 up are kept by the first and
    percent-encoded by the second. *)

Definition double_quote : ascii := "034"%char.
Definition line_feed : ascii := "010"%char.

(** The hexadecimal digit of a value below 16, in lower and upper case. *)
Definition hex_lower (n : nat) : ascii :=
  if (n <? 10)%nat then ascii_of_nat (48 + n) else ascii_of_nat (87 + n).

Definition hex_upper (n : nat) : ascii :=
  if (n <? 10)%nat then ascii_of_nat (48 + n) else ascii_of_nat (55 + n).

(** [QuoteJSONString], one character: the short escapes, [\u00xx] for the
    other control characters, the character itself otherwise. *)
Definition quote_unit (c : ascii) : string :=
  let n := nat_of_ascii c in
  if (n =? 8)%nat then "\b"
  else if (n =? 9)%nat then "\t"
  else if (n =? 10)%nat then "\n"
  else if (n =? 12)%nat then "\f"
  else if (n =? 13)%nat then "\r"
  else if (n =? 34)%nat then String "\" (String double_quote "")
  else if (n =? 92)%nat then "\\"
  else if (n <? 32)%nat
       then "\u00" ++ String (hex_lower (n / 16)) (String (hex_lower (n mod 16)) "")
       else String c "".

Fixpoint quote_units (s : string) : string :=
  match s with
  | EmptyString => ""
  | String c r => quote_unit c ++ quote_units r
  end.

Definition QuoteJSONString (s : string) : string :=
  String double_quote (quote_units s ++ String double_quote "").

(** The [gap] of [JSON.stringify(value, null, 2)]. *)
Definition gap : string := "  ".

(** [SerializeJSONProperty] with [SerializeJSONArray] and
    [SerializeJSONObject], at indentation [indent]. *)
Fixpoint SerializeJSONProperty (indent : string) (value : json) : string :=
  match value with
  | JNumber n => toString n
  | JString s => QuoteJSONString s
  | JArray items =>
      match items with
      | [] => "[]"
      | _ :: _ =>
          let stepback := indent in
          let indent := (indent ++ gap)%string in
          let separator := ("," ++ String line_feed indent)%string in
          ("[" ++ String line_feed indent
               ++ String.concat separator (map (SerializeJSONProperty indent) items)
               ++ String line_feed stepback ++ "]")%string
      end
  | JObject props =>
      match props with
      | [] => "{}"
      | _ :: _ =>
          let stepback := indent in
          let indent := (indent ++ gap)%string in
          let separator := ("," ++ String line_feed indent)%string in
          ("{" ++ String line_feed indent
               ++ String.concat separator
                   (map (fun p : string * json =>
                           let (key, v) := p in
                           (QuoteJSONString key ++ ": " ++ SerializeJSONProperty indent v)%string)
                      props)
               ++ String line_feed stepback ++ "}")%string
      end
  end.

Definition JSON_stringify (value : json) : string := SerializeJSONProperty "" value.

(** The characters [encodeURIComponent] keeps: letters, digits and
    [- _ . ! ~ * ' ( )]. *)
Definition unreserved (c : ascii) : bool :=
  let n := nat_of_ascii c in
  ((65 <=? n) && (n <=? 90) || (97 <=? n) && (n <=? 122) || (48 <=? n) && (n <=? 57)
   || (n =? 45) || (n =? 95) || (n =? 46) || (n =? 33) || (n =? 126) || (n =? 42)
   || (n =? 39) || (n =? 40) || (n =? 41))%nat.

Definition encode_unit (c : ascii) : string :=
  if unreserved c then String c ""
  else String "%" (String (hex_upper (nat_of_ascii c / 16))
                     (String (hex_upper (nat_of_ascii c mod 16)) "")).

Fixpoint encodeURIComponent (s : string) : string :=
  match s with
  | EmptyString => ""
  | String c r => encode_unit c ++ encodeURIComponent r
  end.

(** [dataStr] of [handleDownload], for the object it builds. *)
Definition dataStr (annotationData : AnnotationData.t) : string :=
  "data:text/json;charset=utf-8,"
    ++ encodeURIComponent (JSON_stringify (json_of_annotationData annotationData)).

(** The attributes [handleDownload] sets on the anchor it clicks. *)
Record Anchor : Type := { href : string; download : string }.

Definition downloadAnchor (annotationData : AnnotationData.t) : Anchor :=
  {| href := dataStr annotationData; download := "annotations.json" |}.

(** *** Reading the texts back *)

(** The value of a hexadecimal digit. *)
Definition hex_value (c : ascii) : nat :=
  let n := nat_of_ascii c in
  if (n <=? 57)%nat then n - 48 else if (n <=? 70)%nat then n - 55 else n - 87.

(** The first character of a quoted text and what follows it; nothing at
    a double quote. *)
Definition read_unit (t : string) : option (ascii * string) :=
  match t with
  | EmptyString => None
  | String c r =>
      if (nat_of_ascii c =? 34)%nat then None
      else if (nat_of_ascii c =? 92)%nat then
        match r with
        | String e r' =>
            let k := nat_of_ascii e in
            if (k =? 98)%nat then Some ("008"%char, r')
            else if (k =? 116)%nat then Some ("009"%char, r')
            else if (k =? 110)%nat then Some ("010"%char, r')
            else if (k =? 102)%nat then Some ("012"%char, r')
            else if (k =? 114)%nat then Some ("013"%char, r')
            else if (k =? 117)%nat then
              match r' with
              | String _ (String _ (String h (String l r''))) =>
                  Some (ascii_of_nat (16 * hex_value h + hex_value l), r'')
              | _ => None
              end
            else Some (e, r')
        | EmptyString => None
        end
      else Some (c, r)
  end.

(** The first character of an encoded text and what follows it. *)
Definition read_encoded (t : string) : option (ascii * string) :=
  match t with
  | EmptyString => None
  | String c r =>
      if (nat_of_ascii c =? 37)%nat then
        match r with
        | String h (String l r') =>
            Some (ascii_of_nat (16 * hex_value h + hex_value l), r')
        | _ => None
        end
      else Some (c, r)
  end.

(** The text of one box in the array of the document, and what separates
    two of them. *)
Definition box_text (b : Box.t) : string :=
  SerializeJSONProperty "    " (json_of_box b).

Definition box_separator : string := "," ++ String line_feed "    ".

(** A label with a quote, a backslash and a line feed in it. *)
Definition awkward_box : Box.t :=
  Box.mk (-3) 0 12 (-7) (String double_quote (String "\" (String line_feed "a"))).

(** The text of the document around its file name and its array. *)
Definition document_text (filename array : string) : string :=
  ("{" ++ String line_feed
     ("  " ++ String double_quote
        ("filename" ++ String double_quote
           (": " ++ String double_quote
              (quote_units filename ++ String double_quote
                 ("," ++ String line_feed
                    ("  " ++ String double_quote
                       ("annotations" ++ String double_quote
                          (": " ++ (array ++ String line_feed "}"))))))))))%string.

(** A character that needs no escape in a link, or the percent sign. *)
Definition link_safe (c : ascii) : bool := unreserved c || (nat_of_ascii c =? 37)%nat.

(** * Properties *)

(** ** Arrays *)

Lemma pop_spread_then {A : Type} (a : list A) (v : A) :
  pop (spread_then a v) = (Some v, a).
Proof.
  unfold pop, spread_then.
  rewrite rev_app_distr. cbn [rev app].
  now rewrite rev_involutive.
Qed.

Lemma nonempty_spread_then {A : Type} (a : list A) :
  a <> [] -> exists r v, a = spread_then r v.
Proof.
  intros Ha. destruct (exists_last Ha) as [r [v Hrv]]. now exists r, v.
Qed.

Lemma length_spread_then {A : Type} (a : list A) (v : A) :
  List.length (spread_then a v) = S (List.length a).
Proof. unfold spread_then. rewrite length_app. cbn. lia. Qed.

(** ** The handlers of the history version, case by case *)

Lemma handleUndo_empty (s : AppHistory.State) :
  AppHistory.undoStack s = [] -> AppHistory.handleUndo s = s.
Proof. intros H. unfold AppHistory.handleUndo. now rewrite H. Qed.

Lemma handleUndo_pops (s : AppHistory.State) (u : list (list Box.t)) (a : list Box.t) :
  AppHistory.undoStack s = spread_then u a ->
  AppHistory.handleUndo s =
  AppHistory.setUndoStack u
    (AppHistory.setAnnotations a
       (AppHistory.setRedoStack (AppHistory.annotations s :: AppHistory.redoStack s) s)).
Proof.
  intros H. unfold AppHistory.handleUndo.
  rewrite H, pop_spread_then, length_spread_then. reflexivity.
Qed.

Lemma handleRedo_empty (s : AppHistory.State) :
  AppHistory.redoStack s = [] -> AppHistory.handleRedo s = s.
Proof. intros H. unfold AppHistory.handleRedo. now rewrite H. Qed.

Lemma handleRedo_shifts (s : AppHistory.State) (n : list Box.t) (r : list (list Box.t)) :
  AppHistory.redoStack s = n :: r ->
  AppHistory.handleRedo s =
  AppHistory.setRedoStack r
    (AppHistory.setAnnotations n
       (AppHistory.setUndoStack
          (spread_then (AppHistory.undoStack s) (AppHistory.annotations s)) s)).
Proof. intros H. unfold AppHistory.handleRedo. now rewrite H. Qed.

Lemma handleMouseUp_commits (s : AppHistory.State) (b : Box.t) :
  AppHistory.isDrawing s = true ->
  AppHistory.currentBox s = Some b ->
  AppHistory.handleMouseUp s =
  {| AppHistory.imageSrc := AppHistory.imageSrc s;
     AppHistory.annotations := AppHistory.annotations s ++ [b];
     AppHistory.currentLabel := AppHistory.currentLabel s;
     AppHistory.isDrawing := false;
     AppHistory.startPos := AppHistory.startPos s;
     AppHistory.currentBox := None;
     AppHistory.undoStack := AppHistory.undoStack s ++ [AppHistory.annotations s];
     AppHistory.redoStack := [] |}.
Proof. intros Hd Hb. unfold AppHistory.handleMouseUp. now rewrite Hd, Hb. Qed.

Lemma plain_handleMouseUp_commits (s : App.State) (b : Box.t) :
  App.isDrawing s = true ->
  App.currentBox s = Some b ->
  App.handleMouseUp s =
  {| App.imageSrc := App.imageSrc s;
     App.annotations := App.annotations s ++ [b];
     App.currentLabel := App.currentLabel s;
     App.isDrawing := false;
     App.startPos := App.startPos s;
     App.currentBox := None |}.
Proof. intros Hd Hb. unfold App.handleMouseUp. now rewrite Hd, Hb. Qed.

(** Redo undoes an undo: the whole state comes back, stacks included. *)
Lemma handleRedo_handleUndo (s : AppHistory.State) :
  AppHistory.undoStack s <> [] ->
  AppHistory.handleRedo (AppHistory.handleUndo s) = s.
Proof.
  intros Hne. destruct (nonempty_spread_then _ Hne) as [u [a Hu]].
  rewrite (handleUndo_pops s u a Hu).
  erewrite handleRedo_shifts by reflexivity.
  destruct s; cbn in *. now subst.
Qed.

(** ** The two versions *)

(** Without its stacks, the history version is the plain one: on the
    events they share the two take the same steps. *)
Lemma forget_step (ev : App.Event) (s : AppHistory.State) :
  forget (AppHistory.step s (lift ev)) = App.step (forget s) ev.
Proof.
  destruct ev as [files|file|e|e| |value]; cbn [lift AppHistory.step App.step].
  - now destruct files.
  - reflexivity.
  - unfold AppHistory.handleMouseDown, App.handleMouseDown. cbn [forget App.imageSrc].
    now destruct (truthy_string (AppHistory.imageSrc s)).
  - unfold AppHistory.handleMouseMove, App.handleMouseMove. cbn [forget App.isDrawing].
    now destruct (AppHistory.isDrawing s).
  - unfold AppHistory.handleMouseUp, App.handleMouseUp.
    cbn [forget App.isDrawing App.currentBox].
    now destruct (AppHistory.isDrawing s), (AppHistory.currentBox s).
  - reflexivity.
Qed.

Lemma forget_run (evs : list App.Event) (s : AppHistory.State) :
  forget (AppHistory.run (map lift evs) s) = App.run evs (forget s).
Proof.
  revert s. induction evs as [|ev evs IH]; intros s; [reflexivity|].
  cbn [map AppHistory.run App.run fold_left].
  rewrite <- forget_step. apply IH.
Qed.

Lemma forget_handleDownload (s : AppHistory.State) :
  App.handleDownload (forget s) = AppHistory.handleDownload s.
Proof. reflexivity. Qed.

(** ** The scenarios of the specification *)

(** Scenario B: two commits, three undos (the third with nothing left to
    undo), two redos. *)
Example scenarioB :
  AppHistory.annotations two_commits = [box1; box2] /\
  map (fun clicks => AppHistory.annotations (AppHistory.run clicks two_commits))
    [ [AppHistory.ClickUndo];
      [AppHistory.ClickUndo; AppHistory.ClickUndo];
      [AppHistory.ClickUndo; AppHistory.ClickUndo; AppHistory.ClickUndo];
      [AppHistory.ClickUndo; AppHistory.ClickUndo; AppHistory.ClickUndo;
       AppHistory.ClickRedo];
      [AppHistory.ClickUndo; AppHistory.ClickUndo; AppHistory.ClickUndo;
       AppHistory.ClickRedo; AppHistory.ClickRedo] ]
  = [ [box1]; []; []; [box1]; [box1; box2] ].
Proof. split; reflexivity. Qed.

Example scenarioC_redo_does_nothing :
  AppHistory.annotations (AppHistory.run scenarioC AppHistory.init) = [box2] /\
  AppHistory.run (scenarioC ++ [AppHistory.ClickRedo]) AppHistory.init
  = AppHistory.run scenarioC AppHistory.init.
Proof. split; vm_compute; reflexivity. Qed.

(** ** C1: which snapshot redo reinstates *)

(** C1, as stated, fails.  After the two undos the queue is not empty; the
    snapshot queued by the earliest undo, [[box1; box2]], is the last one in
    it; redo reinstates the other one, [[box1]], queued by the latest undo,
    and leaves the earliest in the queue. *)
Lemma redo_is_not_fifo :
  AppHistory.annotations two_commits = [box1; box2] /\
  AppHistory.redoStack first_undo = [[box1; box2]] /\
  AppHistory.redoStack second_undo = [[box1]; [box1; box2]] /\
  AppHistory.redoStack second_undo <> [] /\
  AppHistory.annotations (AppHistory.handleRedo second_undo) <> [box1; box2] /\
  AppHistory.annotations (AppHistory.handleRedo second_undo) = [box1] /\
  AppHistory.redoStack (AppHistory.handleRedo second_undo) = [[box1; box2]].
Proof.
  repeat split; try reflexivity; vm_compute; discriminate.
Qed.

(** C1, amended: the redo side is last-in-first-out, like the undo side.
    An undo puts the current list at the front of [redoStack]; for every
    non-empty [redoStack], redo removes the snapshot at the front (the one
    queued by the latest undo still pending), makes it the annotation list,
    and pushes the list it replaces onto [undoStack]; nothing else changes. *)
Theorem redo_is_lifo :
  (forall s : AppHistory.State,
      AppHistory.undoStack s <> [] ->
      AppHistory.redoStack (AppHistory.handleUndo s)
      = AppHistory.annotations s :: AppHistory.redoStack s) /\
  (forall (s : AppHistory.State) (latest : list Box.t) (older : list (list Box.t)),
      AppHistory.redoStack s = latest :: older ->
      AppHistory.handleRedo s =
      {| AppHistory.imageSrc := AppHistory.imageSrc s;
         AppHistory.annotations := latest;
         AppHistory.currentLabel := AppHistory.currentLabel s;
         AppHistory.isDrawing := AppHistory.isDrawing s;
         AppHistory.startPos := AppHistory.startPos s;
         AppHistory.currentBox := AppHistory.currentBox s;
         AppHistory.undoStack := AppHistory.undoStack s ++ [AppHistory.annotations s];
         AppHistory.redoStack := older |}).
Proof.
  split.
  - intros s Hne. destruct (nonempty_spread_then _ Hne) as [u [a Hu]].
    now rewrite (handleUndo_pops s u a Hu).
  - intros s latest older H. now rewrite (handleRedo_shifts s latest older H).
Qed.

Lemma redo_is_lifo_witness :
  AppHistory.redoStack (AppHistory.handleUndo first_undo)
  = AppHistory.annotations first_undo :: AppHistory.redoStack first_undo /\
  AppHistory.annotations (AppHistory.handleRedo second_undo) = [box1].
Proof.
  split.
  - apply (proj1 redo_is_lifo first_undo). vm_compute. discriminate.
  - rewrite (proj2 redo_is_lifo second_undo [box1] [[box1; box2]]); reflexivity.
Defined.

(** ** Running a drag *)

Lemma history_moves (path : list MouseEvent) (s : AppHistory.State) :
  AppHistory.isDrawing s = true ->
  exists draft,
    AppHistory.run (map AppHistory.MouseMove path) s = AppHistory.setCurrentBox draft s.
Proof.
  revert s. induction path as [|e path IH]; intros s Hd.
  - exists (AppHistory.currentBox s). now destruct s.
  - cbn [map AppHistory.run fold_left AppHistory.step].
    destruct (IH (AppHistory.handleMouseMove e s)) as [draft Hrun].
    + unfold AppHistory.handleMouseMove. now rewrite Hd.
    + exists draft. unfold AppHistory.run in Hrun. rewrite Hrun.
      unfold AppHistory.handleMouseMove. rewrite Hd. reflexivity.
Qed.

Lemma history_drag_commits (d : Drag) (s : AppHistory.State) :
  truthy_string (AppHistory.imageSrc s) = true ->
  AppHistory.run (history_drag d) s =
  {| AppHistory.imageSrc := AppHistory.imageSrc s;
     AppHistory.annotations :=
       AppHistory.annotations s ++ [drag_box (AppHistory.currentLabel s) d];
     AppHistory.currentLabel := AppHistory.currentLabel s;
     AppHistory.isDrawing := false;
     AppHistory.startPos := Pos.mk (offsetX (down d)) (offsetY (down d));
     AppHistory.currentBox := None;
     AppHistory.undoStack := AppHistory.undoStack s ++ [AppHistory.annotations s];
     AppHistory.redoStack := [] |}.
Proof.
  intros Himg. unfold history_drag, AppHistory.run.
  cbn [fold_left AppHistory.step]. rewrite fold_left_app.
  assert (Hdown : AppHistory.handleMouseDown (down d) s =
                  AppHistory.setStartPos (Pos.mk (offsetX (down d)) (offsetY (down d)))
                    (AppHistory.setIsDrawing true s)).
  { unfold AppHistory.handleMouseDown. now rewrite Himg. }
  rewrite Hdown.
  destruct (history_moves (path d)
              (AppHistory.setStartPos (Pos.mk (offsetX (down d)) (offsetY (down d)))
                 (AppHistory.setIsDrawing true s)) eq_refl) as [draft Hrun].
  unfold AppHistory.run in Hrun. rewrite Hrun. reflexivity.
Qed.

Lemma plain_moves (path : list MouseEvent) (s : App.State) :
  App.isDrawing s = true ->
  exists draft, App.run (map App.MouseMove path) s = App.setCurrentBox draft s.
Proof.
  revert s. induction path as [|e path IH]; intros s Hd.
  - exists (App.currentBox s). now destruct s.
  - cbn [map App.run fold_left App.step].
    destruct (IH (App.handleMouseMove e s)) as [draft Hrun].
    + unfold App.handleMouseMove. now rewrite Hd.
    + exists draft. unfold App.run in Hrun. rewrite Hrun.
      unfold App.handleMouseMove. rewrite Hd. reflexivity.
Qed.

Lemma plain_drag_commits (d : Drag) (s : App.State) :
  truthy_string (App.imageSrc s) = true ->
  App.run (plain_drag d) s =
  {| App.imageSrc := App.imageSrc s;
     App.annotations := App.annotations s ++ [drag_box (App.currentLabel s) d];
     App.currentLabel := App.currentLabel s;
     App.isDrawing := false;
     App.startPos := Pos.mk (offsetX (down d)) (offsetY (down d));
     App.currentBox := None |}.
Proof.
  intros Himg. unfold plain_drag, App.run.
  cbn [fold_left App.step]. rewrite fold_left_app.
  assert (Hdown : App.handleMouseDown (down d) s =
                  App.setStartPos (Pos.mk (offsetX (down d)) (offsetY (down d)))
                    (App.setIsDrawing true s)).
  { unfold App.handleMouseDown. now rewrite Himg. }
  rewrite Hdown.
  destruct (plain_moves (path d)
              (App.setStartPos (Pos.mk (offsetX (down d)) (offsetY (down d)))
                 (App.setIsDrawing true s)) eq_refl) as [draft Hrun].
  unfold App.run in Hrun. rewrite Hrun. reflexivity.
Qed.

(** ** C2: pointer-up *)

(** C2, as stated, fails.  After a press with no move the component is
    dragging and has no draft box; the release commits nothing, where the
    claim has the zero-size box at the pressed point in the list.  Both
    versions behave so. *)
Lemma click_commits_nothing :
  (AppHistory.isDrawing pressed = true /\
   AppHistory.currentBox pressed = None /\
   AppHistory.annotations (AppHistory.handleMouseUp pressed) = [] /\
   AppHistory.annotations (AppHistory.handleMouseUp pressed) <> [Box.mk 5 5 0 0 "b"]) /\
  (App.isDrawing plain_pressed = true /\
   App.currentBox plain_pressed = None /\
   App.annotations (App.handleMouseUp plain_pressed) = [] /\
   App.annotations (App.handleMouseUp plain_pressed) <> [Box.mk 5 5 0 0 "b"]).
Proof.
  repeat split; try reflexivity; vm_compute; discriminate.
Qed.

(** C2, amended: in both versions a pointer-up always ends the drag
    ([isDrawing] is false afterwards, whatever the state was), and when no
    draft box exists, as after a click with no pointer-move, nothing is
    committed: the release changes [isDrawing] and nothing else, so the
    annotation list and the stacks stay as they are. *)
Theorem pointer_up_ends_drag :
  (forall s : AppHistory.State,
      AppHistory.isDrawing (AppHistory.handleMouseUp s) = false /\
      (AppHistory.currentBox s = None ->
       AppHistory.handleMouseUp s = AppHistory.setIsDrawing false s)) /\
  (forall s : App.State,
      App.isDrawing (App.handleMouseUp s) = false /\
      (App.currentBox s = None -> App.handleMouseUp s = App.setIsDrawing false s)).
Proof.
  split; intros s; split.
  - unfold AppHistory.handleMouseUp.
    destruct (AppHistory.isDrawing s), (AppHistory.currentBox s); reflexivity.
  - intros Hb. unfold AppHistory.handleMouseUp. rewrite Hb.
    destruct (AppHistory.isDrawing s); reflexivity.
  - unfold App.handleMouseUp.
    destruct (App.isDrawing s), (App.currentBox s); reflexivity.
  - intros Hb. unfold App.handleMouseUp. rewrite Hb.
    destruct (App.isDrawing s); reflexivity.
Qed.

Lemma pointer_up_ends_drag_witness :
  AppHistory.handleMouseUp pressed = AppHistory.setIsDrawing false pressed /\
  App.handleMouseUp plain_pressed = App.setIsDrawing false plain_pressed.
Proof.
  split.
  - apply (proj2 (proj1 pointer_up_ends_drag pressed)). reflexivity.
  - apply (proj2 (proj2 pointer_up_ends_drag plain_pressed)). reflexivity.
Defined.

(** ** C3: commit, undo, redo *)

(** C3.  In any state where a release commits a box [B] (a drag is under
    way and [B] is the draft box), the list after the commit is the list
    before it with [B] appended; undo gives back the list before the
    commit; redo after that gives the list with [B] appended again. *)
Theorem commit_undo_redo (s : AppHistory.State) (B : Box.t)
  (Hdrag : AppHistory.isDrawing s = true)
  (Hdraft : AppHistory.currentBox s = Some B) :
  let committed := AppHistory.handleMouseUp s in
  AppHistory.annotations committed = AppHistory.annotations s ++ [B] /\
  AppHistory.annotations (AppHistory.handleUndo committed) = AppHistory.annotations s /\
  AppHistory.annotations (AppHistory.handleRedo (AppHistory.handleUndo committed))
  = AppHistory.annotations s ++ [B].
Proof.
  intros committed. subst committed.
  rewrite (handleMouseUp_commits s B Hdrag Hdraft).
  split; [reflexivity|]. split.
  - erewrite handleUndo_pops by reflexivity. reflexivity.
  - rewrite handleRedo_handleUndo; [reflexivity|].
    cbn. intros Habs. now apply app_eq_nil in Habs as [_ Habs].
Qed.

Lemma commit_undo_redo_witness :
  AppHistory.annotations (AppHistory.handleMouseUp dragging) = [box1; box2] /\
  AppHistory.annotations (AppHistory.handleUndo (AppHistory.handleMouseUp dragging)) = [box1] /\
  AppHistory.annotations
    (AppHistory.handleRedo (AppHistory.handleUndo (AppHistory.handleMouseUp dragging)))
  = [box1; box2].
Proof.
  exact (commit_undo_redo dragging box2 eq_refl eq_refl).
Defined.

(** ** C4: a commit clears the redo side *)

(** C4.  A commit pushes the list as it was before the commit onto
    [undoStack], empties [redoStack] and appends the box; so when an undo
    is followed by a new commit (a completed drag), [redoStack] is empty
    and redo changes nothing. *)
Theorem commit_clears_redo :
  (forall (s : AppHistory.State) (b : Box.t),
      AppHistory.isDrawing s = true ->
      AppHistory.currentBox s = Some b ->
      AppHistory.undoStack (AppHistory.handleMouseUp s)
      = AppHistory.undoStack s ++ [AppHistory.annotations s] /\
      AppHistory.redoStack (AppHistory.handleMouseUp s) = [] /\
      AppHistory.annotations (AppHistory.handleMouseUp s) = AppHistory.annotations s ++ [b]) /\
  (forall (s : AppHistory.State) (d : Drag),
      truthy_string (AppHistory.imageSrc s) = true ->
      let edited := AppHistory.run (history_drag d) (AppHistory.handleUndo s) in
      AppHistory.redoStack edited = [] /\ AppHistory.handleRedo edited = edited).
Proof.
  split.
  - intros s b Hd Hb. now rewrite (handleMouseUp_commits s b Hd Hb).
  - intros s d Himg edited.
    assert (Hre : AppHistory.redoStack edited = []).
    { subst edited. rewrite history_drag_commits; [reflexivity|].
      unfold AppHistory.handleUndo.
      destruct (0 <? List.length (AppHistory.undoStack s))%nat; [|exact Himg].
      destruct (pop (AppHistory.undoStack s)) as [[l|] r]; exact Himg. }
    split; [exact Hre | now apply handleRedo_empty].
Qed.

Lemma commit_clears_redo_witness :
  AppHistory.redoStack (AppHistory.handleMouseUp dragging) = [] /\
  AppHistory.handleRedo
    (AppHistory.run (history_drag {| down := at_ 1 2; path := []; stop := at_ 3 4 |})
       (AppHistory.handleUndo two_commits))
  = AppHistory.run (history_drag {| down := at_ 1 2; path := []; stop := at_ 3 4 |})
      (AppHistory.handleUndo two_commits).
Proof.
  split.
  - apply (proj1 commit_clears_redo dragging box2); reflexivity.
  - apply (proj2 commit_clears_redo two_commits). reflexivity.
Defined.

(** ** C9: undo and redo with nothing to do *)

(** C9.  With an empty [undoStack], undo returns the state it was given,
    every field of it; with an empty [redoStack], so does redo.  Both are
    total functions with no failure outcome, from the buttons and from the
    Ctrl+Z and Ctrl+Y shortcuts alike. *)
Theorem undo_redo_on_empty_stack (s : AppHistory.State) :
  (AppHistory.undoStack s = [] ->
   AppHistory.handleUndo s = s /\ AppHistory.handleKeyDown "z" true s = s) /\
  (AppHistory.redoStack s = [] ->
   AppHistory.handleRedo s = s /\ AppHistory.handleKeyDown "y" true s = s).
Proof.
  split; intros H.
  - cbn. now rewrite handleUndo_empty.
  - cbn. now rewrite handleRedo_empty.
Qed.

Lemma undo_redo_on_empty_stack_witness :
  AppHistory.handleUndo AppHistory.init = AppHistory.init /\
  AppHistory.handleRedo two_commits = two_commits.
Proof.
  split.
  - exact (proj1 (proj1 (undo_redo_on_empty_stack AppHistory.init) eq_refl)).
  - exact (proj1 (proj2 (undo_redo_on_empty_stack two_commits) eq_refl)).
Defined.

(** ** C5: commits append *)

Lemma history_drags_append (ds : list Drag) (s : AppHistory.State) :
  truthy_string (AppHistory.imageSrc s) = true ->
  AppHistory.annotations (AppHistory.run (List.concat (map history_drag ds)) s)
  = AppHistory.annotations s ++ map (drag_box (AppHistory.currentLabel s)) ds.
Proof.
  revert s. induction ds as [|d ds IH]; intros s Himg.
  - cbn. now rewrite app_nil_r.
  - cbn [map List.concat]. unfold AppHistory.run in *. rewrite fold_left_app.
    fold (AppHistory.run (history_drag d) s).
    rewrite (history_drag_commits d s Himg).
    rewrite IH by exact Himg.
    cbn. now rewrite <- app_assoc.
Qed.

Lemma plain_drags_append (ds : list Drag) (s : App.State) :
  truthy_string (App.imageSrc s) = true ->
  App.annotations (App.run (List.concat (map plain_drag ds)) s)
  = App.annotations s ++ map (drag_box (App.currentLabel s)) ds.
Proof.
  revert s. induction ds as [|d ds IH]; intros s Himg.
  - cbn. now rewrite app_nil_r.
  - cbn [map List.concat]. unfold App.run in *. rewrite fold_left_app.
    fold (App.run (plain_drag d) s).
    rewrite (plain_drag_commits d s Himg).
    rewrite IH by exact Himg.
    cbn. now rewrite <- app_assoc.
Qed.

(** C5.  In both versions a commit puts the draft box, whatever its
    geometry and label, at the end of the list and keeps the elements
    before it in their order; and once an image is loaded, N completed
    drags with no undo among them append N boxes in the order drawn, so a
    list that was empty has length N afterwards; so it is in a session
    that starts by loading an image. *)
Theorem commit_appends :
  (forall (s : AppHistory.State) (b : Box.t),
      AppHistory.isDrawing s = true ->
      AppHistory.currentBox s = Some b ->
      AppHistory.annotations (AppHistory.handleMouseUp s) = AppHistory.annotations s ++ [b]) /\
  (forall (s : App.State) (b : Box.t),
      App.isDrawing s = true ->
      App.currentBox s = Some b ->
      App.annotations (App.handleMouseUp s) = App.annotations s ++ [b]) /\
  (forall (s : AppHistory.State) (ds : list Drag),
      truthy_string (AppHistory.imageSrc s) = true ->
      let after := AppHistory.annotations (AppHistory.run (List.concat (map history_drag ds)) s) in
      after = AppHistory.annotations s ++ map (drag_box (AppHistory.currentLabel s)) ds /\
      (AppHistory.annotations s = [] -> List.length after = List.length ds)) /\
  (forall (s : App.State) (ds : list Drag),
      truthy_string (App.imageSrc s) = true ->
      let after := App.annotations (App.run (List.concat (map plain_drag ds)) s) in
      after = App.annotations s ++ map (drag_box (App.currentLabel s)) ds /\
      (App.annotations s = [] -> List.length after = List.length ds)) /\
  (forall (f : File) (ds : list Drag),
      List.length
        (AppHistory.annotations
           (AppHistory.run (history_load f ++ List.concat (map history_drag ds))
              AppHistory.init)) = List.length ds /\
      List.length
        (App.annotations
           (App.run (plain_load f ++ List.concat (map plain_drag ds)) App.init))
      = List.length ds).
Proof.
  repeat apply conj.
  - intros s b Hd Hb. now rewrite (handleMouseUp_commits s b Hd Hb).
  - intros s b Hd Hb. now rewrite (plain_handleMouseUp_commits s b Hd Hb).
  - intros s ds Himg after. subst after.
    rewrite (history_drags_append ds s Himg). split; [reflexivity|].
    intros Hnil. rewrite Hnil. cbn. apply length_map.
  - intros s ds Himg after. subst after.
    rewrite (plain_drags_append ds s Himg). split; [reflexivity|].
    intros Hnil. rewrite Hnil. cbn. apply length_map.
  - intros f ds. split.
    + unfold AppHistory.run. rewrite fold_left_app.
      fold (AppHistory.run (history_load f) AppHistory.init).
      fold (AppHistory.run (List.concat (map history_drag ds))
              (AppHistory.run (history_load f) AppHistory.init)).
      rewrite history_drags_append by reflexivity. cbn. apply length_map.
    + unfold App.run. rewrite fold_left_app.
      fold (App.run (plain_load f) App.init).
      fold (App.run (List.concat (map plain_drag ds)) (App.run (plain_load f) App.init)).
      rewrite plain_drags_append by reflexivity. cbn. apply length_map.
Qed.

Lemma commit_appends_witness :
  AppHistory.annotations (AppHistory.handleMouseUp dragging) = [box1] ++ [box2] /\
  App.annotations (App.handleMouseUp (forget dragging)) = [box1] ++ [box2] /\
  List.length
    (AppHistory.annotations
       (AppHistory.run (List.concat (map history_drag three_drags)) loaded)) = 3%nat /\
  List.length
    (App.annotations (App.run (List.concat (map plain_drag three_drags)) (forget loaded))) = 3%nat.
Proof.
  destruct commit_appends as [Hh [Hp [Hhn [Hpn _]]]].
  repeat apply conj.
  - apply (Hh dragging box2); reflexivity.
  - apply (Hp (forget dragging) box2); reflexivity.
  - apply (Hhn loaded three_drags); reflexivity.
  - apply (Hpn (forget loaded) three_drags); reflexivity.
Defined.

(** ** C6: the exported document *)

(** C6.  In both versions the exported object has the constant file name
    and the current annotation list, whatever the state, and so whatever
    file was picked during the events that led to it; after scenario A,
    with any picked file, its tree is the document of the specification. *)
Theorem export_document :
  (forall s : AppHistory.State,
      AppHistory.handleDownload s
      = AnnotationData.mk "annotated_image.jpg" (AppHistory.annotations s)) /\
  (forall s : App.State,
      App.handleDownload s = AnnotationData.mk "annotated_image.jpg" (App.annotations s)) /\
  (forall (evs : list AppHistory.Event) (evs' : list App.Event),
      AnnotationData.filename (AppHistory.handleDownload (AppHistory.run evs AppHistory.init))
      = "annotated_image.jpg" /\
      AnnotationData.filename (App.handleDownload (App.run evs' App.init))
      = "annotated_image.jpg") /\
  (forall f : File,
      json_of_annotationData
        (AppHistory.handleDownload (AppHistory.run (scenarioA f) AppHistory.init))
      = scenarioA_document /\
      json_of_annotationData (App.handleDownload (App.run (plain_scenarioA f) App.init))
      = scenarioA_document).
Proof.
  split; [reflexivity|]. split; [reflexivity|]. split.
  - intros evs evs'. split; reflexivity.
  - intros [n t b]. split; reflexivity.
Qed.

(** ** C7: no drawing without an image *)

(** C7.  In both versions, when no image is loaded ([imageSrc] is null), a
    pointer-down returns the state unchanged: [isDrawing], [startPos] and
    [currentBox] in particular are what they were. *)
Theorem pointer_down_without_image :
  (forall (s : AppHistory.State) (e : MouseEvent),
      AppHistory.imageSrc s = None -> AppHistory.handleMouseDown e s = s) /\
  (forall (s : App.State) (e : MouseEvent),
      App.imageSrc s = None -> App.handleMouseDown e s = s).
Proof.
  split; intros s e H.
  - unfold AppHistory.handleMouseDown. now rewrite H.
  - unfold App.handleMouseDown. now rewrite H.
Qed.

Lemma pointer_down_without_image_witness :
  AppHistory.handleMouseDown (at_ 5 5) AppHistory.init = AppHistory.init /\
  App.handleMouseDown (at_ 5 5) App.init = App.init.
Proof.
  split.
  - apply (proj1 pointer_down_without_image). reflexivity.
  - apply (proj2 pointer_down_without_image). reflexivity.
Defined.

(** ** C8: loading an image *)

(** C8.  In both versions, loading an image writes [imageSrc] and nothing
    else.  Picking a file changes no cell at all; when the reader has
    finished, [imageSrc] becomes its result and the annotations, the two
    stacks, the selected label and the drag cells are those of the state
    before. *)
Theorem image_load_frame :
  (forall (s : AppHistory.State) (files : list File) (f : File),
      fst (AppHistory.handleImageUpload files s) = s /\
      (AppHistory.onload f s =
       {| AppHistory.imageSrc := Some (readAsDataURL f);
          AppHistory.annotations := AppHistory.annotations s;
          AppHistory.currentLabel := AppHistory.currentLabel s;
          AppHistory.isDrawing := AppHistory.isDrawing s;
          AppHistory.startPos := AppHistory.startPos s;
          AppHistory.currentBox := AppHistory.currentBox s;
          AppHistory.undoStack := AppHistory.undoStack s;
          AppHistory.redoStack := AppHistory.redoStack s |}) /\
      AppHistory.run (history_load f) s = AppHistory.onload f s) /\
  (forall (s : App.State) (files : list File) (f : File),
      fst (App.handleImageUpload files s) = s /\
      (App.onload f s =
       {| App.imageSrc := Some (readAsDataURL f);
          App.annotations := App.annotations s;
          App.currentLabel := App.currentLabel s;
          App.isDrawing := App.isDrawing s;
          App.startPos := App.startPos s;
          App.currentBox := App.currentBox s |}) /\
      App.run (plain_load f) s = App.onload f s).
Proof.
  split; intros s files f.
  - split; [now destruct files|]. split; reflexivity.
  - split; [now destruct files|]. split; reflexivity.
Qed.

(** ** C10: the label of a committed box *)

Lemma setCurrentLabel_same (s : AppHistory.State) :
  AppHistory.setCurrentLabel (AppHistory.currentLabel s) s = s.
Proof. now destruct s. Qed.

Lemma history_label_event (ev : AppHistory.Event) (s : AppHistory.State) :
  label_event ev = true ->
  exists l, AppHistory.step s ev = AppHistory.setCurrentLabel l s.
Proof.
  destruct ev as [files|file|e|e| |value|key ctrlKey| |]; cbn [label_event];
    try discriminate; intros Hl.
  - now exists value.
  - cbn [AppHistory.step]. unfold AppHistory.handleKeyDown.
    destruct (key =? "1"); [now eexists|].
    destruct (key =? "2"); [now eexists|].
    destruct (key =? "3"); [now eexists|].
    destruct (key =? "4"); [now eexists|].
    destruct (key =? "5"); [now eexists|].
    destruct (key =? "6"); [now eexists|].
    exists (AppHistory.currentLabel s). rewrite setCurrentLabel_same.
    destruct (key =? "z"), (key =? "y"), ctrlKey; cbn in Hl;
      try discriminate; reflexivity.
Qed.

Lemma history_label_events (evs : list AppHistory.Event) (s : AppHistory.State) :
  forallb label_event evs = true ->
  exists l, AppHistory.run evs s = AppHistory.setCurrentLabel l s.
Proof.
  revert s. induction evs as [|ev evs IH]; intros s Hall.
  - exists (AppHistory.currentLabel s). now rewrite setCurrentLabel_same.
  - cbn in Hall. apply andb_prop in Hall as [Hev Hevs].
    destruct (history_label_event ev s Hev) as [l Hl].
    destruct (IH (AppHistory.step s ev) Hevs) as [l' Hl'].
    exists l'. cbn [AppHistory.run fold_left]. unfold AppHistory.run in Hl'.
    rewrite Hl', Hl. reflexivity.
Qed.

Lemma plain_label_events (evs : list App.Event) (s : App.State) :
  forallb plain_label_event evs = true ->
  exists l, App.run evs s = App.setCurrentLabel l s.
Proof.
  revert s. induction evs as [|ev evs IH]; intros s Hall.
  - exists (App.currentLabel s). now destruct s.
  - cbn in Hall. apply andb_prop in Hall as [Hev Hevs].
    destruct (IH (App.step s ev) Hevs) as [l' Hl'].
    exists l'. cbn [App.run fold_left]. unfold App.run in Hl'. rewrite Hl'.
    destruct ev; try discriminate. reflexivity.
Qed.

(** C10.  In both versions, when a drag is under way, the pointer moves a
    last time and the button is released, the committed box carries the
    label that was selected at that last move; selections made between the
    move and the release (through the control or, in the history version,
    through the keys) do not reach it. *)
Theorem committed_label_is_label_at_last_move :
  (forall (s : AppHistory.State) (e : MouseEvent) (relabel : list AppHistory.Event),
      AppHistory.isDrawing s = true ->
      forallb label_event relabel = true ->
      AppHistory.annotations
        (AppHistory.run (AppHistory.MouseMove e :: relabel ++ [AppHistory.MouseUp]) s)
      = AppHistory.annotations s
          ++ [newBox (AppHistory.startPos s) e (AppHistory.currentLabel s)]) /\
  (forall (s : App.State) (e : MouseEvent) (relabel : list App.Event),
      App.isDrawing s = true ->
      forallb plain_label_event relabel = true ->
      App.annotations (App.run (App.MouseMove e :: relabel ++ [App.MouseUp]) s)
      = App.annotations s ++ [newBox (App.startPos s) e (App.currentLabel s)]).
Proof.
  split; intros s e relabel Hd Hall.
  - unfold AppHistory.run. cbn [fold_left]. rewrite fold_left_app.
    destruct (history_label_events relabel (AppHistory.step s (AppHistory.MouseMove e)) Hall)
      as [l Hl].
    unfold AppHistory.run in Hl. rewrite Hl.
    cbn [AppHistory.step]. unfold AppHistory.handleMouseMove. rewrite Hd.
    cbn [negb]. erewrite handleMouseUp_commits; [reflexivity | exact Hd | reflexivity].
  - unfold App.run. cbn [fold_left]. rewrite fold_left_app.
    destruct (plain_label_events relabel (App.step s (App.MouseMove e)) Hall) as [l Hl].
    unfold App.run in Hl. rewrite Hl.
    cbn [App.step]. unfold App.handleMouseMove. rewrite Hd.
    cbn [negb]. erewrite plain_handleMouseUp_commits; [reflexivity | exact Hd | reflexivity].
Qed.

Lemma committed_label_is_label_at_last_move_witness :
  AppHistory.annotations
    (AppHistory.run
       (AppHistory.MouseMove (at_ 110 60)
          :: [AppHistory.LabelChange "i"; AppHistory.KeyDown "3" false]
          ++ [AppHistory.MouseUp]) pressed)
  = [] ++ [Box.mk 5 5 105 55 "b"] /\
  App.annotations
    (App.run
       (App.MouseMove (at_ 110 60) :: [App.LabelChange "i"] ++ [App.MouseUp]) plain_pressed)
  = [] ++ [Box.mk 5 5 105 55 "b"].
Proof.
  split.
  - apply (proj1 committed_label_is_label_at_last_move pressed (at_ 110 60)); reflexivity.
  - apply (proj2 committed_label_is_label_at_last_move plain_pressed (at_ 110 60)); reflexivity.
Defined.

(** * Further properties of the session *)

(** ** Invariants of a run *)

Lemma history_run_snoc (evs : list AppHistory.Event) (ev : AppHistory.Event)
  (s : AppHistory.State) :
  AppHistory.run (evs ++ [ev]) s = AppHistory.step (AppHistory.run evs s) ev.
Proof. unfold AppHistory.run. now rewrite fold_left_app. Qed.

(** A property of the start state that every step keeps holds after every
    run. *)
Lemma history_run_invariant (P : AppHistory.State -> Prop) :
  (forall s ev, P s -> P (AppHistory.step s ev)) ->
  forall evs s, P s -> P (AppHistory.run evs s).
Proof.
  intros Hstep evs. induction evs as [|ev evs IH]; intros s Hs; [exact Hs|].
  cbn [AppHistory.run fold_left]. apply IH, Hstep, Hs.
Qed.

Lemma handleUndo_cases (s : AppHistory.State) :
  (AppHistory.undoStack s = [] /\ AppHistory.handleUndo s = s) \/
  (exists u a,
      AppHistory.undoStack s = u ++ [a] /\
      AppHistory.handleUndo s =
      AppHistory.setUndoStack u
        (AppHistory.setAnnotations a
           (AppHistory.setRedoStack (AppHistory.annotations s :: AppHistory.redoStack s) s))).
Proof.
  destruct (AppHistory.undoStack s) as [|l u'] eqn:Hu.
  - left. split; [reflexivity|]. now apply handleUndo_empty.
  - right. assert (Hne : l :: u' <> []) by discriminate.
    destruct (nonempty_spread_then _ Hne) as [u [a Hua]]. exists u, a.
    unfold spread_then in Hua. split; [exact Hua|].
    apply handleUndo_pops. unfold spread_then. now rewrite Hu.
Qed.

Lemma handleRedo_cases (s : AppHistory.State) :
  (AppHistory.redoStack s = [] /\ AppHistory.handleRedo s = s) \/
  (exists n r,
      AppHistory.redoStack s = n :: r /\
      AppHistory.handleRedo s =
      AppHistory.setRedoStack r
        (AppHistory.setAnnotations n
           (AppHistory.setUndoStack
              (AppHistory.undoStack s ++ [AppHistory.annotations s]) s))).
Proof.
  destruct (AppHistory.redoStack s) as [|n r] eqn:Hr.
  - left. split; [reflexivity|]. now apply handleRedo_empty.
  - right. exists n, r. split; [reflexivity|]. now apply handleRedo_shifts.
Qed.

(** What a key press can be: a label selection, an undo, a redo, nothing. *)
Lemma handleKeyDown_cases (key : string) (ctrlKey : bool) (s : AppHistory.State) :
  (exists l, AppHistory.handleKeyDown key ctrlKey s = AppHistory.setCurrentLabel l s) \/
  (edits (AppHistory.KeyDown key ctrlKey) = true /\
   (AppHistory.handleKeyDown key ctrlKey s = AppHistory.handleUndo s \/
    AppHistory.handleKeyDown key ctrlKey s = AppHistory.handleRedo s)).
Proof.
  unfold AppHistory.handleKeyDown, edits.
  destruct (key =? "1") eqn:K1; [left; now eexists|].
  destruct (key =? "2") eqn:K2; [left; now eexists|].
  destruct (key =? "3") eqn:K3; [left; now eexists|].
  destruct (key =? "4") eqn:K4; [left; now eexists|].
  destruct (key =? "5") eqn:K5; [left; now eexists|].
  destruct (key =? "6") eqn:K6; [left; now eexists|].
  destruct (key =? "z") eqn:Kz.
  - destruct ctrlKey.
    + right. split; [reflexivity|]. now left.
    + left. exists (AppHistory.currentLabel s). now destruct s.
  - destruct (key =? "y") eqn:Ky.
    + destruct ctrlKey.
      * right. split; [reflexivity|]. now right.
      * left. exists (AppHistory.currentLabel s). now destruct s.
    + left. exists (AppHistory.currentLabel s). now destruct s.
Qed.

(** ** The history is the list's own past *)

Lemma proper_prefixes_snoc (a : list Box.t) (b : Box.t) :
  proper_prefixes (a ++ [b]) = proper_prefixes a ++ [a].
Proof.
  unfold proper_prefixes. rewrite length_app. cbn [List.length].
  rewrite Nat.add_1_r, seq_S, map_app. cbn [map Nat.add]. f_equal.
  - apply map_ext_in. intros k Hk. apply in_seq in Hk.
    rewrite firstn_app. replace (k - List.length a)%nat with 0%nat by lia.
    cbn [firstn]. now rewrite app_nil_r.
  - rewrite firstn_app, firstn_all, Nat.sub_diag. cbn [firstn]. now rewrite app_nil_r.
Qed.

Lemma length_proper_prefixes (a : list Box.t) :
  List.length (proper_prefixes a) = List.length a.
Proof. unfold proper_prefixes. now rewrite length_map, length_seq. Qed.

Lemma history_shape_undo (s : AppHistory.State) :
  history_shape s -> history_shape (AppHistory.handleUndo s).
Proof.
  intros [Hu Hr]. destruct (handleUndo_cases s) as [[_ Hs]|[u [a [Hua Hs]]]];
    rewrite Hs; [now split|].
  unfold history_shape. cbn -[proper_prefixes]. rewrite Hua in Hu.
  destruct (AppHistory.annotations s) as [|b0 l0] eqn:Ha.
  - cbn in Hu. now destruct u.
  - assert (Hne : b0 :: l0 <> []) by discriminate.
    destruct (exists_last Hne) as [a' [b Hab]]. rewrite Hab in *.
    rewrite proper_prefixes_snoc in Hu.
    apply app_inj_tail in Hu as [Hu1 Hu2]. subst u a.
    split; [reflexivity|]. split; [now exists b | exact Hr].
Qed.

Lemma history_shape_redo (s : AppHistory.State) :
  history_shape s -> history_shape (AppHistory.handleRedo s).
Proof.
  intros [Hu Hr]. destruct (handleRedo_cases s) as [[_ Hs]|[n [r [Hnr Hs]]]];
    rewrite Hs; [now split|].
  unfold history_shape. cbn -[proper_prefixes].
  rewrite Hnr in Hr. destruct Hr as [[b Hb] Hr]. subst n.
  split; [|exact Hr]. now rewrite proper_prefixes_snoc, Hu.
Qed.

Lemma history_shape_step (s : AppHistory.State) (ev : AppHistory.Event) :
  history_shape s -> history_shape (AppHistory.step s ev).
Proof.
  intros Hs. destruct ev as [files|file|e|e| |value|key ctrlKey| |];
    cbn [AppHistory.step].
  - now destruct files.
  - exact Hs.
  - unfold AppHistory.handleMouseDown.
    now destruct (negb (truthy_string (AppHistory.imageSrc s))).
  - unfold AppHistory.handleMouseMove. now destruct (negb (AppHistory.isDrawing s)).
  - unfold AppHistory.handleMouseUp.
    destruct (AppHistory.isDrawing s); [|exact Hs].
    destruct (AppHistory.currentBox s) as [b|]; [|exact Hs].
    destruct Hs as [Hu _]. unfold history_shape, spread_then. cbn -[proper_prefixes].
    split; [|exact I]. now rewrite proper_prefixes_snoc, Hu.
  - exact Hs.
  - destruct (handleKeyDown_cases key ctrlKey s) as [[l Hl]|[_ [Hk|Hk]]]; rewrite Hk || rewrite Hl.
    + exact Hs.
    + now apply history_shape_undo.
    + now apply history_shape_redo.
  - now apply history_shape_undo.
  - now apply history_shape_redo.
Qed.

(** X1.  After any run of events from the start of a session, the undo
    stack is exactly the list of proper prefixes of the annotation list,
    shortest first: its depth is the number of boxes, and its k-th entry
    holds the first k boxes. *)
Theorem undo_stack_is_the_past (evs : list AppHistory.Event) :
  let s := AppHistory.run evs AppHistory.init in
  AppHistory.undoStack s = proper_prefixes (AppHistory.annotations s) /\
  List.length (AppHistory.undoStack s) = List.length (AppHistory.annotations s) /\
  (forall k, (k < List.length (AppHistory.annotations s))%nat ->
             nth_error (AppHistory.undoStack s) k = Some (firstn k (AppHistory.annotations s))).
Proof.
  intros s.
  assert (Hs : history_shape s).
  { apply history_run_invariant; [exact history_shape_step|]. now split. }
  destruct Hs as [Hu _]. split; [exact Hu|]. split.
  - now rewrite Hu, length_proper_prefixes.
  - intros k Hk. rewrite Hu. unfold proper_prefixes.
    rewrite nth_error_map, nth_error_seq.
    apply Nat.ltb_lt in Hk. now rewrite Hk.
Qed.

Lemma history_shape_run (evs : list AppHistory.Event) :
  history_shape (AppHistory.run evs AppHistory.init).
Proof. apply history_run_invariant; [exact history_shape_step|]. now split. Qed.

Lemma grows_by_one_nth (l : list (list Box.t)) :
  forall (prev : list Box.t) (k : nat) (r : list Box.t),
    grows_by_one prev l ->
    nth_error l k = Some r ->
    exists added, r = prev ++ added /\ List.length added = S k.
Proof.
  induction l as [|a l IH]; intros prev k r Hg Hk.
  - now destruct k.
  - destruct Hg as [[b Hb] Hg]. destruct k as [|k]; cbn in Hk.
    + injection Hk as <-. now exists [b].
    + destruct (IH a k r Hg Hk) as [added [Hr Hlen]].
      exists (b :: added). subst a. rewrite Hr, <- app_assoc. cbn. now rewrite Hlen.
Qed.

(** X2.  After any run of events from the start of a session, undo takes
    exactly the last box off the annotation list (and leaves the empty
    list empty): the boxes before it stay, in their order. *)
Theorem undo_removes_last_box (evs : list AppHistory.Event) :
  let s := AppHistory.run evs AppHistory.init in
  AppHistory.annotations (AppHistory.handleUndo s) = removelast (AppHistory.annotations s).
Proof.
  intros s. destruct (history_shape_run evs) as [Hu _]. fold s in Hu.
  destruct (handleUndo_cases s) as [[Hnil Hs]|[u [a [Hua Hs]]]]; rewrite Hs.
  - rewrite Hnil in Hu. apply (f_equal (@List.length _)) in Hu.
    rewrite length_proper_prefixes in Hu. cbn in Hu.
    destruct (AppHistory.annotations s); [reflexivity|discriminate].
  - cbn. rewrite Hua in Hu.
    destruct (AppHistory.annotations s) as [|b0 l0] eqn:Ha.
    + cbn in Hu. now destruct u.
    + assert (Hne : b0 :: l0 <> []) by discriminate.
      destruct (exists_last Hne) as [a' [b Hab]]. rewrite Hab in *.
      rewrite proper_prefixes_snoc in Hu.
      apply app_inj_tail in Hu as [_ Hu2]. subst a.
      now rewrite removelast_last.
Qed.

(** X3.  After any run of events from the start of a session, the k-th
    entry of the redo stack is the current annotation list with k+1 boxes
    added at its end; so a redo, when there is one to do, appends exactly
    one box and keeps every box of the list. *)
Theorem redo_stack_continues_the_list (evs : list AppHistory.Event) :
  let s := AppHistory.run evs AppHistory.init in
  (forall k r, nth_error (AppHistory.redoStack s) k = Some r ->
               exists added,
                 r = AppHistory.annotations s ++ added /\ List.length added = S k) /\
  (AppHistory.redoStack s <> [] ->
   exists b, AppHistory.annotations (AppHistory.handleRedo s)
             = AppHistory.annotations s ++ [b]).
Proof.
  intros s. destruct (history_shape_run evs) as [_ Hr]. fold s in Hr. split.
  - intros k r Hk. exact (grows_by_one_nth _ _ k r Hr Hk).
  - intros Hne. destruct (handleRedo_cases s) as [[Hnil _]|[n [r [Hnr Hs]]]];
      [contradiction|].
    rewrite Hs. cbn. rewrite Hnr in Hr. destruct Hr as [[b Hb] _]. now exists b.
Qed.

Lemma redo_stack_continues_the_list_witness :
  exists b, AppHistory.annotations (AppHistory.handleRedo three_then_back)
            = AppHistory.annotations three_then_back ++ [b].
Proof.
  apply (proj2 (redo_stack_continues_the_list three_then_back_events)).
  vm_compute. discriminate.
Defined.

(** ** Undo and redo as inverse operations *)

Lemma length_undoStack_handleUndo (s : AppHistory.State) :
  List.length (AppHistory.undoStack (AppHistory.handleUndo s))
  = pred (List.length (AppHistory.undoStack s)).
Proof.
  destruct (handleUndo_cases s) as [[Hnil Hs]|[u [a [Hua Hs]]]]; rewrite Hs.
  - now rewrite Hnil.
  - cbn. rewrite Hua, length_app. cbn. lia.
Qed.

Lemma length_redoStack_handleRedo (s : AppHistory.State) :
  List.length (AppHistory.redoStack (AppHistory.handleRedo s))
  = pred (List.length (AppHistory.redoStack s)).
Proof.
  destruct (handleRedo_cases s) as [[Hnil Hs]|[n [r [Hnr Hs]]]]; rewrite Hs.
  - now rewrite Hnil.
  - cbn. now rewrite Hnr.
Qed.

Lemma handleUndo_handleRedo (s : AppHistory.State) :
  AppHistory.redoStack s <> [] ->
  AppHistory.handleUndo (AppHistory.handleRedo s) = s.
Proof.
  intros Hne. destruct (handleRedo_cases s) as [[Hnil _]|[n [r [Hnr Hs]]]];
    [contradiction|].
  rewrite Hs. erewrite handleUndo_pops by reflexivity.
  destruct s; cbn in *. now subst.
Qed.

(** X4.  In every state, n undos followed by n redos give back the state
    they started from, stacks included, as long as the undo stack holds at
    least n snapshots; and n redos followed by n undos do the same when
    the redo stack holds at least n. *)
Theorem undos_then_redos_restore (n : nat) (s : AppHistory.State) :
  ((n <= List.length (AppHistory.undoStack s))%nat ->
   Nat.iter n AppHistory.handleRedo (Nat.iter n AppHistory.handleUndo s) = s) /\
  ((n <= List.length (AppHistory.redoStack s))%nat ->
   Nat.iter n AppHistory.handleUndo (Nat.iter n AppHistory.handleRedo s) = s).
Proof.
  revert s. induction n as [|n IH]; intros s; [now split|]. split; intros Hn.
  - rewrite (Nat.iter_succ_r n _ AppHistory.handleUndo), (Nat.iter_succ n _ AppHistory.handleRedo).
    rewrite (proj1 (IH (AppHistory.handleUndo s))).
    + apply handleRedo_handleUndo. intros Hnil. rewrite Hnil in Hn. cbn in Hn. lia.
    + rewrite length_undoStack_handleUndo. lia.
  - rewrite (Nat.iter_succ_r n _ AppHistory.handleRedo), (Nat.iter_succ n _ AppHistory.handleUndo).
    rewrite (proj2 (IH (AppHistory.handleRedo s))).
    + apply handleUndo_handleRedo. intros Hnil. rewrite Hnil in Hn. cbn in Hn. lia.
    + rewrite length_redoStack_handleRedo. lia.
Qed.

Lemma undos_then_redos_restore_witness :
  Nat.iter 2 AppHistory.handleRedo (Nat.iter 2 AppHistory.handleUndo two_commits)
  = two_commits /\
  Nat.iter 2 AppHistory.handleUndo (Nat.iter 2 AppHistory.handleRedo three_then_back)
  = three_then_back.
Proof.
  split.
  - apply (proj1 (undos_then_redos_restore 2 two_commits)). vm_compute. lia.
  - apply (proj2 (undos_then_redos_restore 2 three_then_back)). vm_compute. lia.
Defined.

(** ** The tracker *)

Lemma handleUndo_tracker (s : AppHistory.State) :
  AppHistory.imageSrc (AppHistory.handleUndo s) = AppHistory.imageSrc s /\
  AppHistory.isDrawing (AppHistory.handleUndo s) = AppHistory.isDrawing s /\
  AppHistory.currentBox (AppHistory.handleUndo s) = AppHistory.currentBox s /\
  AppHistory.currentLabel (AppHistory.handleUndo s) = AppHistory.currentLabel s /\
  AppHistory.startPos (AppHistory.handleUndo s) = AppHistory.startPos s.
Proof.
  destruct (handleUndo_cases s) as [[_ Hs]|[u [a [_ Hs]]]]; rewrite Hs;
    repeat split; reflexivity.
Qed.

Lemma handleRedo_tracker (s : AppHistory.State) :
  AppHistory.imageSrc (AppHistory.handleRedo s) = AppHistory.imageSrc s /\
  AppHistory.isDrawing (AppHistory.handleRedo s) = AppHistory.isDrawing s /\
  AppHistory.currentBox (AppHistory.handleRedo s) = AppHistory.currentBox s /\
  AppHistory.currentLabel (AppHistory.handleRedo s) = AppHistory.currentLabel s /\
  AppHistory.startPos (AppHistory.handleRedo s) = AppHistory.startPos s.
Proof.
  destruct (handleRedo_cases s) as [[_ Hs]|[n [r [_ Hs]]]]; rewrite Hs;
    repeat split; reflexivity.
Qed.




(** ** A session without an image *)

Lemma blank_step (s : AppHistory.State) (ev : AppHistory.Event) :
  (truthy_string (AppHistory.imageSrc s) = true \/
   s = AppHistory.setCurrentLabel (AppHistory.currentLabel s) AppHistory.init) ->
  truthy_string (AppHistory.imageSrc (AppHistory.step s ev)) = true \/
  AppHistory.step s ev
  = AppHistory.setCurrentLabel (AppHistory.currentLabel (AppHistory.step s ev))
      AppHistory.init.
Proof.
  intros [Himg|Hblank].
  - left. destruct ev as [files|file|e|e| |value|key ctrlKey| |];
      cbn [AppHistory.step].
    + now destruct files.
    + reflexivity.
    + unfold AppHistory.handleMouseDown. now rewrite Himg.
    + unfold AppHistory.handleMouseMove. now destruct (AppHistory.isDrawing s).
    + unfold AppHistory.handleMouseUp.
      now destruct (AppHistory.isDrawing s), (AppHistory.currentBox s).
    + exact Himg.
    + destruct (handleKeyDown_cases key ctrlKey s) as [[l Hl]|[_ [Hk|Hk]]].
      * now rewrite Hl.
      * rewrite Hk. now rewrite (proj1 (handleUndo_tracker s)).
      * rewrite Hk. now rewrite (proj1 (handleRedo_tracker s)).
    + now rewrite (proj1 (handleUndo_tracker s)).
    + now rewrite (proj1 (handleRedo_tracker s)).
  - remember (AppHistory.currentLabel s) as l eqn:Hl. clear Hl. subst s.
    destruct ev as [files|file|e|e| |value|key ctrlKey| |];
      cbn [AppHistory.step].
    + right. now destruct files.
    + left. reflexivity.
    + right. reflexivity.
    + right. reflexivity.
    + right. reflexivity.
    + right. reflexivity.
    + right.
      destruct (handleKeyDown_cases key ctrlKey
                  (AppHistory.setCurrentLabel l AppHistory.init))
        as [[l' Hl']|[_ [Hk|Hk]]].
      * rewrite Hl'. reflexivity.
      * rewrite Hk. reflexivity.
      * rewrite Hk. reflexivity.
    + right. reflexivity.
    + right. reflexivity.
Qed.

(** X6.  After any run of events from the start of a session, either an
    image is loaded or the state is the initial one except, possibly, for
    the selected label: without an image no press, move, release, undo or
    redo changes anything, and nothing is ever drawn. *)
Theorem nothing_happens_without_image (evs : list AppHistory.Event) :
  let s := AppHistory.run evs AppHistory.init in
  truthy_string (AppHistory.imageSrc s) = true \/
  s = AppHistory.setCurrentLabel (AppHistory.currentLabel s) AppHistory.init.
Proof.
  apply (history_run_invariant
           (fun s => truthy_string (AppHistory.imageSrc s) = true \/
                     s = AppHistory.setCurrentLabel (AppHistory.currentLabel s)
                           AppHistory.init)).
  - exact blank_step.
  - now right.
Qed.

(** ** What leaves the list alone *)

Lemma quiet_step (s : AppHistory.State) (ev : AppHistory.Event) :
  edits ev = false ->
  AppHistory.annotations (AppHistory.step s ev) = AppHistory.annotations s /\
  AppHistory.undoStack (AppHistory.step s ev) = AppHistory.undoStack s /\
  AppHistory.redoStack (AppHistory.step s ev) = AppHistory.redoStack s.
Proof.
  intros Hq. destruct ev as [files|file|e|e| |value|key ctrlKey| |];
    cbn [AppHistory.step]; try discriminate.
  - now destruct files.
  - now split.
  - unfold AppHistory.handleMouseDown.
    now destruct (negb (truthy_string (AppHistory.imageSrc s))).
  - unfold AppHistory.handleMouseMove. now destruct (negb (AppHistory.isDrawing s)).
  - now split.
  - destruct (handleKeyDown_cases key ctrlKey s) as [[l Hl]|[He _]].
    + now rewrite Hl.
    + congruence.
Qed.

(** X7.  In every state, a run of events with no release, no click on Undo
    or Redo and no Ctrl+Z or Ctrl+Y among them leaves the annotation list
    and both stacks as they were: file picks, loads, presses, moves, label
    selections and all other keys never touch them. *)
Theorem only_edits_touch_the_list (evs : list AppHistory.Event) (s : AppHistory.State)
  (Hquiet : forallb (fun ev => negb (edits ev)) evs = true) :
  AppHistory.annotations (AppHistory.run evs s) = AppHistory.annotations s /\
  AppHistory.undoStack (AppHistory.run evs s) = AppHistory.undoStack s /\
  AppHistory.redoStack (AppHistory.run evs s) = AppHistory.redoStack s.
Proof.
  revert s. induction evs as [|ev evs IH]; intros s; [now split|].
  cbn in Hquiet. apply andb_prop in Hquiet as [Hev Hevs].
  apply negb_true_iff in Hev.
  cbn [AppHistory.run fold_left].
  destruct (IH Hevs (AppHistory.step s ev)) as [Ha [Hu Hr]].
  destruct (quiet_step s ev Hev) as [Ha' [Hu' Hr']].
  unfold AppHistory.run in *. now rewrite Ha, Hu, Hr.
Qed.

Lemma only_edits_touch_the_list_witness :
  AppHistory.annotations
    (AppHistory.run
       [AppHistory.MouseDown (at_ 1 1); AppHistory.MouseMove (at_ 9 9);
        AppHistory.KeyDown "z" false; AppHistory.KeyDown "4" true;
        AppHistory.FileChange []; AppHistory.ReaderLoad photo] two_commits)
  = AppHistory.annotations two_commits.
Proof.
  apply (only_edits_touch_the_list
           [AppHistory.MouseDown (at_ 1 1); AppHistory.MouseMove (at_ 9 9);
            AppHistory.KeyDown "z" false; AppHistory.KeyDown "4" true;
            AppHistory.FileChange []; AppHistory.ReaderLoad photo] two_commits).
  reflexivity.
Defined.

(** ** The plain version only appends *)

Lemma plain_step_appends (s : App.State) (ev : App.Event) :
  exists added,
    App.annotations (App.step s ev) = App.annotations s ++ added /\
    (List.length added <= (if plain_release ev then 1 else 0))%nat.
Proof.
  destruct ev as [files|file|e|e| |value]; cbn [App.step plain_release].
  - exists []. rewrite app_nil_r. now destruct files.
  - exists []. now rewrite app_nil_r.
  - exists []. rewrite app_nil_r. unfold App.handleMouseDown.
    now destruct (negb (truthy_string (App.imageSrc s))).
  - exists []. rewrite app_nil_r. unfold App.handleMouseMove.
    now destruct (negb (App.isDrawing s)).
  - unfold App.handleMouseUp.
    destruct (App.isDrawing s), (App.currentBox s) as [b|];
      try (exists []; rewrite app_nil_r; cbn; split; [reflexivity|lia]).
    exists [b]. cbn. split; [reflexivity|lia].
  - exists []. now rewrite app_nil_r.
Qed.

(** X8.  In the version without history, no run of events removes,
    reorders or alters a box: the list after the run is the list before it
    followed by the boxes added, at most one for each release. *)
Theorem plain_list_only_grows (evs : list App.Event) (s : App.State) :
  exists added,
    App.annotations (App.run evs s) = App.annotations s ++ added /\
    (List.length added <= List.length (filter plain_release evs))%nat.
Proof.
  revert s. induction evs as [|ev evs IH]; intros s.
  - exists []. now rewrite app_nil_r.
  - cbn [App.run fold_left].
    destruct (plain_step_appends s ev) as [first_added [Hf Hlf]].
    destruct (IH (App.step s ev)) as [more [Hm Hlm]].
    exists (first_added ++ more). unfold App.run in *.
    rewrite Hm, Hf, <- app_assoc. split; [reflexivity|].
    rewrite length_app. cbn [filter].
    destruct (plain_release ev); cbn [List.length]; lia.
Qed.

(** ** A draft left over *)

(** X9.  In both versions a press does not discard the draft box: when an
    image is loaded and a draft box is left over (its release never
    reached the page), a press followed at once by a release commits the
    left-over box, drawn from the earlier press, while the start position
    is already that of the new press. *)
Theorem press_keeps_left_over_draft :
  (forall (s : AppHistory.State) (b : Box.t) (e : MouseEvent),
      truthy_string (AppHistory.imageSrc s) = true ->
      AppHistory.currentBox s = Some b ->
      let s' := AppHistory.handleMouseUp (AppHistory.handleMouseDown e s) in
      AppHistory.annotations s' = AppHistory.annotations s ++ [b] /\
      AppHistory.startPos s' = Pos.mk (offsetX e) (offsetY e)) /\
  (forall (s : App.State) (b : Box.t) (e : MouseEvent),
      truthy_string (App.imageSrc s) = true ->
      App.currentBox s = Some b ->
      let s' := App.handleMouseUp (App.handleMouseDown e s) in
      App.annotations s' = App.annotations s ++ [b] /\
      App.startPos s' = Pos.mk (offsetX e) (offsetY e)).
Proof.
  split; intros s b e Himg Hb s'; subst s'.
  - unfold AppHistory.handleMouseDown. rewrite Himg. cbn [negb].
    erewrite handleMouseUp_commits; [now split | reflexivity | exact Hb].
  - unfold App.handleMouseDown. rewrite Himg. cbn [negb].
    erewrite plain_handleMouseUp_commits; [now split | reflexivity | exact Hb].
Qed.

Lemma press_keeps_left_over_draft_witness :
  AppHistory.annotations
    (AppHistory.handleMouseUp (AppHistory.handleMouseDown (at_ 200 200) left_over))
  = [] ++ [Box.mk 10 10 20 30 "b"] /\
  App.annotations
    (App.handleMouseUp (App.handleMouseDown (at_ 200 200) (forget left_over)))
  = [] ++ [Box.mk 10 10 20 30 "b"].
Proof.
  split.
  - apply (proj1 press_keeps_left_over_draft left_over (Box.mk 10 10 20 30 "b")
             (at_ 200 200)); reflexivity.
  - apply (proj2 press_keeps_left_over_draft (forget left_over) (Box.mk 10 10 20 30 "b")
             (at_ 200 200)); reflexivity.
Defined.

(** ** Labels *)

(** A key press that selects a label selects one of the first six
    options; any other key press that stays clear of undo and redo leaves
    the label alone. *)
Lemma handleKeyDown_label (key : string) (ctrlKey : bool) (s : AppHistory.State) :
  (exists i, (i < 6)%nat /\ key = digit_key (S i) /\
             AppHistory.handleKeyDown key ctrlKey s
             = AppHistory.setCurrentLabel (nth i (map fst label_options) "") s) \/
  (~ In key label_keys /\
   (AppHistory.handleKeyDown key ctrlKey s = s \/
    AppHistory.handleKeyDown key ctrlKey s = AppHistory.handleUndo s \/
    AppHistory.handleKeyDown key ctrlKey s = AppHistory.handleRedo s)).
Proof.
  unfold AppHistory.handleKeyDown.
  destruct (key =? "1") eqn:K1;
    [apply String.eqb_eq in K1; left; exists 0%nat; repeat split; [lia|exact K1]|].
  destruct (key =? "2") eqn:K2;
    [apply String.eqb_eq in K2; left; exists 1%nat; repeat split; [lia|exact K2]|].
  destruct (key =? "3") eqn:K3;
    [apply String.eqb_eq in K3; left; exists 2%nat; repeat split; [lia|exact K3]|].
  destruct (key =? "4") eqn:K4;
    [apply String.eqb_eq in K4; left; exists 3%nat; repeat split; [lia|exact K4]|].
  destruct (key =? "5") eqn:K5;
    [apply String.eqb_eq in K5; left; exists 4%nat; repeat split; [lia|exact K5]|].
  destruct (key =? "6") eqn:K6;
    [apply String.eqb_eq in K6; left; exists 5%nat; repeat split; [lia|exact K6]|].
  right. split.
  - apply String.eqb_neq in K1, K2, K3, K4, K5, K6.
    cbn. intros [H|[H|[H|[H|[H|[H|[]]]]]]]; congruence.
  - destruct (key =? "z"); [destruct ctrlKey; auto|].
    destruct (key =? "y"); [destruct ctrlKey; auto|]. auto.
Qed.

(** X10.  The digit keys 1 to 6 select the values of the first six options
    of the label control, in the order of the control, with or without
    Ctrl; no key selects one of the last three options, and every other
    key leaves the selected label as it is. *)
Theorem digit_keys_follow_the_options (key : string) (ctrlKey : bool)
  (s : AppHistory.State) :
  (forall i, (i < 6)%nat ->
             AppHistory.currentLabel (AppHistory.handleKeyDown (digit_key (S i)) ctrlKey s)
             = nth i (map fst label_options) "") /\
  (~ In key label_keys ->
   AppHistory.currentLabel (AppHistory.handleKeyDown key ctrlKey s)
   = AppHistory.currentLabel s) /\
  (AppHistory.currentLabel (AppHistory.handleKeyDown key ctrlKey s)
   = AppHistory.currentLabel s \/
   In (AppHistory.currentLabel (AppHistory.handleKeyDown key ctrlKey s))
     (firstn 6 (map fst label_options))).
Proof.
  split; [|split].
  - intros i Hi.
    do 6 (destruct i as [|i]; [reflexivity|]). lia.
  - intros Hkey.
    destruct (handleKeyDown_label key ctrlKey s) as [[i [Hi [Hk _]]]|[_ [H|[H|H]]]].
    + exfalso. apply Hkey. subst key.
      do 6 (destruct i as [|i]; [cbn; tauto|]). lia.
    + now rewrite H.
    + rewrite H. apply handleUndo_tracker.
    + rewrite H. apply handleRedo_tracker.
  - destruct (handleKeyDown_label key ctrlKey s) as [[i [Hi [_ Hk]]]|[_ [H|[H|H]]]].
    + right. rewrite Hk. cbn [AppHistory.currentLabel AppHistory.setCurrentLabel].
      do 6 (destruct i as [|i]; [cbn; tauto|]). lia.
    + left. now rewrite H.
    + left. rewrite H. apply handleUndo_tracker.
    + left. rewrite H. apply handleRedo_tracker.
Qed.

Lemma digit_keys_follow_the_options_witness :
  AppHistory.currentLabel (AppHistory.handleKeyDown "5" false two_commits) = "img" /\
  AppHistory.currentLabel (AppHistory.handleKeyDown "7" false two_commits) = "i".
Proof.
  split.
  - apply (proj1 (digit_keys_follow_the_options "5" false two_commits) 4%nat). lia.
  - apply (proj1 (proj2 (digit_keys_follow_the_options "7" false two_commits))).
    cbn. intros [H|[H|[H|[H|[H|[H|[]]]]]]]; discriminate.
Defined.

Lemma forallb_snoc {A : Type} (f : A -> bool) (l : list A) (x : A) :
  forallb f (l ++ [x]) = true <-> forallb f l = true /\ f x = true.
Proof.
  rewrite forallb_app. cbn. rewrite andb_true_r. apply andb_true_iff.
Qed.

Lemma labels_offered_undo (s : AppHistory.State) :
  labels_offered s -> labels_offered (AppHistory.handleUndo s).
Proof.
  intros Hs. destruct (handleUndo_cases s) as [[_ H]|[u [a [Hua H]]]];
    rewrite H; [exact Hs|].
  destruct Hs as [Hl [Hb [Ha [Hu Hr]]]]. unfold labels_offered. cbn.
  rewrite Hua in Hu. apply forallb_snoc in Hu as [Hu1 Hu2].
  rewrite Ha, Hr. auto.
Qed.

Lemma labels_offered_redo (s : AppHistory.State) :
  labels_offered s -> labels_offered (AppHistory.handleRedo s).
Proof.
  intros Hs. destruct (handleRedo_cases s) as [[_ H]|[n [r [Hnr H]]]];
    rewrite H; [exact Hs|].
  destruct Hs as [Hl [Hb [Ha [Hu Hr]]]]. unfold labels_offered. cbn.
  rewrite Hnr in Hr. cbn in Hr. apply andb_true_iff in Hr as [Hr1 Hr2].
  repeat split; auto. apply forallb_snoc. auto.
Qed.

Lemma labels_offered_step (s : AppHistory.State) (ev : AppHistory.Event) :
  from_select ev = true -> labels_offered s -> labels_offered (AppHistory.step s ev).
Proof.
  intros Hev Hs. destruct ev as [files|file|e|e| |value|key ctrlKey| |];
    cbn [AppHistory.step].
  - now destruct files.
  - exact Hs.
  - unfold AppHistory.handleMouseDown.
    now destruct (negb (truthy_string (AppHistory.imageSrc s))).
  - unfold AppHistory.handleMouseMove.
    destruct (negb (AppHistory.isDrawing s)); [exact Hs|].
    destruct Hs as [Hl [Hb [Ha [Hu Hr]]]]. unfold labels_offered. cbn.
    repeat split; auto. intros b [= <-]. exact Hl.
  - unfold AppHistory.handleMouseUp.
    destruct (AppHistory.isDrawing s); [|exact Hs].
    destruct (AppHistory.currentBox s) as [b|] eqn:Hc; [|exact Hs].
    destruct Hs as [Hl [Hb [Ha [Hu Hr]]]]. unfold labels_offered, spread_then. cbn.
    repeat split; auto; try discriminate; apply forallb_snoc; auto.
  - destruct Hs as [Hl [Hb [Ha [Hu Hr]]]]. unfold labels_offered. cbn. auto.
  - destruct (handleKeyDown_label key ctrlKey s) as [[i [Hi [_ Hk]]]|[_ [H|[H|H]]]];
      rewrite ?Hk, ?H.
    + destruct Hs as [Hl [Hb [Ha [Hu Hr]]]]. unfold labels_offered. cbn -[offered].
      repeat split; auto.
      do 6 (destruct i as [|i]; [reflexivity|]). lia.
    + exact Hs.
    + now apply labels_offered_undo.
    + now apply labels_offered_redo.
  - now apply labels_offered_undo.
  - now apply labels_offered_redo.
Qed.

(** X11.  When every change event of the label control carries the value
    of one of its options, then after any run from the start of a session
    every box of the annotation list, and so every box of the exported
    document, has one of the nine option values as its label. *)
Theorem committed_labels_are_options (evs : list AppHistory.Event)
  (Hsel : forallb from_select evs = true) :
  forall b,
    In b (AnnotationData.annotations
            (AppHistory.handleDownload (AppHistory.run evs AppHistory.init))) ->
    In (Box.label b) (map fst label_options).
Proof.
  assert (Hinv : labels_offered (AppHistory.run evs AppHistory.init)).
  { assert (Hgen : forall s, labels_offered s -> labels_offered (AppHistory.run evs s)).
    { induction evs as [|ev evs IH]; intros s Hs; [exact Hs|].
      cbn in Hsel. apply andb_prop in Hsel as [Hev Hevs].
      cbn [AppHistory.run fold_left]. apply (IH Hevs).
      now apply labels_offered_step. }
    apply Hgen. unfold labels_offered. cbn. repeat split. discriminate. }
  destruct Hinv as [_ [_ [Ha _]]]. intros b Hb. cbn in Hb.
  rewrite forallb_forall in Ha. specialize (Ha b Hb).
  unfold box_offered, offered in Ha. apply existsb_exists in Ha as [o [Ho Heq]].
  apply String.eqb_eq in Heq. rewrite <- Heq. now apply in_map.
Qed.

Lemma committed_labels_are_options_witness :
  In (Box.label box2) (map fst label_options).
Proof.
  apply (committed_labels_are_options
           (history_load photo
              ++ history_drag {| down := at_ 10 10; path := []; stop := at_ 110 60 |}
              ++ AppHistory.LabelChange "i"
              :: history_drag {| down := at_ 50 50; path := []; stop := at_ 10 10 |})).
  - reflexivity.
  - vm_compute. right. left. reflexivity.
Defined.

(** ** Colours *)

Lemma offered_cases (l : string) :
  offered l = true ->
  l = "b" \/ l = "i" \/ l = "s" \/ l = "t" \/ l = "img" \/ l = "l" \/
  l = "li" \/ l = "active-i" \/ l = "active-s".
Proof.
  unfold offered. intros H. apply existsb_exists in H as [o [Ho He]].
  apply String.eqb_eq in He. subst l. cbn in Ho.
  repeat (destruct Ho as [<-|Ho]; [cbn; tauto|]). contradiction.
Qed.

(** X12.  In the version without history every option of the label
    control has a border colour of its own: two offered labels with the
    same colour are the same label, and none of them gets the default
    colour, which is that of every label the control does not offer. *)
Theorem plain_colours_tell_labels_apart (l1 l2 : string) :
  (offered l1 = true -> offered l2 = true ->
   App.getColorForLabel l1 = App.getColorForLabel l2 -> l1 = l2) /\
  (offered l1 = true -> App.getColorForLabel l1 <> "border-black") /\
  (offered l1 = false -> App.getColorForLabel l1 = "border-black").
Proof.
  split; [|split].
  - intros H1 H2.
    apply offered_cases in H1. apply offered_cases in H2.
    repeat (destruct H1 as [H1|H1]); subst l1;
      repeat (destruct H2 as [H2|H2]); subst l2;
      cbn; intros Hc; try reflexivity; discriminate Hc.
  - intros H1. apply offered_cases in H1.
    repeat (destruct H1 as [H1|H1]); subst l1; cbn; discriminate.
  - unfold offered, App.getColorForLabel. cbn [existsb label_options fst].
    intros H.
    repeat (apply orb_false_iff in H; destruct H as [Hk H];
            rewrite String.eqb_sym in Hk; rewrite Hk; clear Hk).
    reflexivity.
Qed.

Lemma plain_colours_tell_labels_apart_witness :
  App.getColorForLabel "li" <> "border-black" /\
  App.getColorForLabel "header" = "border-black".
Proof.
  split.
  - apply (proj1 (proj2 (plain_colours_tell_labels_apart "li" "li"))). reflexivity.
  - apply (proj2 (proj2 (plain_colours_tell_labels_apart "header" "b"))). reflexivity.
Defined.

(** X13.  In the version with history only the first six options have a
    colour of their own; every other label gets the default colour, so the
    options List, Active Input and Active Select are drawn alike. *)
Theorem history_colours_cover_six_options (l1 l2 : string) :
  (In l1 (firstn 6 (map fst label_options)) ->
   In l2 (firstn 6 (map fst label_options)) ->
   AppHistory.getColorForLabel l1 = AppHistory.getColorForLabel l2 -> l1 = l2) /\
  (In l1 (firstn 6 (map fst label_options)) ->
   AppHistory.getColorForLabel l1 <> "border-gray-500") /\
  (~ In l1 (firstn 6 (map fst label_options)) ->
   AppHistory.getColorForLabel l1 = "border-gray-500") /\
  (In l1 (skipn 6 (map fst label_options)) ->
   In l2 (skipn 6 (map fst label_options)) ->
   AppHistory.getColorForLabel l1 = AppHistory.getColorForLabel l2).
Proof.
  split; [|split; [|split]].
  - cbn. intros H1 H2.
    repeat (destruct H1 as [H1|H1]); subst; try contradiction;
      repeat (destruct H2 as [H2|H2]); subst; try contradiction;
      cbn; intros Hc; try reflexivity; discriminate Hc.
  - cbn. intros H1.
    repeat (destruct H1 as [H1|H1]); subst; try contradiction; cbn; discriminate.
  - cbn. intros H. unfold AppHistory.getColorForLabel.
    destruct (l1 =? "b") eqn:K1; [apply String.eqb_eq in K1; subst; exfalso; apply H; auto 10|].
    destruct (l1 =? "i") eqn:K2; [apply String.eqb_eq in K2; subst; exfalso; apply H; auto 10|].
    destruct (l1 =? "s") eqn:K3; [apply String.eqb_eq in K3; subst; exfalso; apply H; auto 10|].
    destruct (l1 =? "t") eqn:K4; [apply String.eqb_eq in K4; subst; exfalso; apply H; auto 10|].
    destruct (l1 =? "img") eqn:K5; [apply String.eqb_eq in K5; subst; exfalso; apply H; auto 10|].
    destruct (l1 =? "l") eqn:K6; [apply String.eqb_eq in K6; subst; exfalso; apply H; auto 10|].
    reflexivity.
  - cbn. intros H1 H2.
    repeat (destruct H1 as [H1|H1]); subst; try contradiction;
      repeat (destruct H2 as [H2|H2]); subst; try contradiction; reflexivity.
Qed.

Lemma history_colours_cover_six_options_witness :
  AppHistory.getColorForLabel "li" = AppHistory.getColorForLabel "active-s" /\
  AppHistory.getColorForLabel "img" <> "border-gray-500".
Proof.
  split.
  - apply (proj2 (proj2 (proj2 (history_colours_cover_six_options "li" "active-s"))));
      cbn; tauto.
  - apply (proj1 (proj2 (history_colours_cover_six_options "img" "b"))). cbn. tauto.
Defined.

(** ** Texts *)

Lemma append_assoc (a b c : string) : ((a ++ b) ++ c = a ++ (b ++ c))%string.
Proof. induction a as [|ch a IH]; cbn; [reflexivity|now rewrite IH]. Qed.

Lemma append_inv_head (a b c : string) : (a ++ b = a ++ c)%string -> b = c.
Proof. induction a as [|ch a IH]; cbn; intros H; [exact H|]. injection H as H. auto. Qed.

(** The digits of a number end where the text that follows them begins:
    two numbers followed by texts that do not start with a digit are equal
    as soon as the whole texts are. *)
Lemma uint_text_ends (d1 : Decimal.uint) :
  forall (d2 : Decimal.uint) (r1 r2 : string),
    (NilEmpty.string_of_uint d1 ++ r1 = NilEmpty.string_of_uint d2 ++ r2)%string ->
    ends_number r1 -> ends_number r2 ->
    d1 = d2 /\ r1 = r2.
Proof.
  induction d1 as [|d1 IH|d1 IH|d1 IH|d1 IH|d1 IH|d1 IH|d1 IH|d1 IH|d1 IH|d1 IH];
    intros d2 r1 r2 H H1 H2; destruct d2; cbn in H;
    try (now split);
    try (subst r1; cbn in H1; discriminate H1);
    try (subst r2; cbn in H2; discriminate H2);
    try (injection H as H; destruct (IH _ _ _ H H1 H2) as [-> ->]; now split);
    try discriminate H.
Qed.

Lemma uint_text_starts_with_digit (d : Decimal.uint) (r : string) :
  d <> Decimal.Nil ->
  exists c t, (NilEmpty.string_of_uint d ++ r)%string = String c t /\ is_digit c = true.
Proof.
  intros Hd. destruct d; [contradiction| | | | | | | | | |]; cbn; eexists; eexists;
    (split; [reflexivity|reflexivity]).
Qed.

Lemma toString_shape (n : Z) :
  exists (negative : bool) (d : Decimal.uint),
    d <> Decimal.Nil /\
    Z.to_int n = (if negative then Decimal.Neg d else Decimal.Pos d) /\
    toString n = ((if negative then "-" else "") ++ NilEmpty.string_of_uint d)%string.
Proof.
  unfold toString. destruct n as [|p|p]; cbn [Z.to_int].
  - exists false, (Decimal.D0 Decimal.Nil). repeat split. discriminate.
  - exists false, (Pos.to_uint p). pose proof (Unsigned.to_uint_nonnil p) as Hp.
    repeat split; [exact Hp|]. cbn. unfold NilZero.string_of_uint.
    now destruct (Pos.to_uint p).
  - exists true, (Pos.to_uint p). pose proof (Unsigned.to_uint_nonnil p) as Hp.
    repeat split; [exact Hp|]. cbn. unfold NilZero.string_of_uint.
    now destruct (Pos.to_uint p).
Qed.

Lemma number_text_ends (n m : Z) (r1 r2 : string) :
  (toString n ++ r1 = toString m ++ r2)%string ->
  ends_number r1 -> ends_number r2 ->
  n = m /\ r1 = r2.
Proof.
  intros H H1 H2.
  destruct (toString_shape n) as [sn [dn [Hdn [Hin Hn]]]].
  destruct (toString_shape m) as [sm [dm [Hdm [Him Hm]]]].
  rewrite Hn, Hm, !append_assoc in H.
  destruct sn, sm; cbn in H.
  - injection H as H. destruct (uint_text_ends _ _ _ _ H H1 H2) as [Hd Hr].
    split; [|exact Hr]. apply to_int_inj. now rewrite Hin, Him, Hd.
  - destruct (uint_text_starts_with_digit dm r2 Hdm) as [c [t [Hc Hdig]]].
    rewrite Hc in H. injection H as <- _. discriminate Hdig.
  - destruct (uint_text_starts_with_digit dn r1 Hdn) as [c [t [Hc Hdig]]].
    rewrite Hc in H. injection H as -> _. discriminate Hdig.
  - destruct (uint_text_ends _ _ _ _ H H1 H2) as [Hd Hr].
    split; [|exact Hr]. apply to_int_inj. now rewrite Hin, Him, Hd.
Qed.

Lemma px_text (n m : Z) : (toString n ++ "px" = toString m ++ "px")%string -> n = m.
Proof. intros H. now apply (number_text_ends n m "px" "px"). Qed.

(** ** The workspace *)

Lemma annotation_node_inj (g : string -> string) (b1 b2 : Box.t) (i1 i2 : nat) :
  annotation_node g b1 i1 = annotation_node g b2 i2 -> b1 = b2.
Proof.
  unfold annotation_node, box_style. intros H.
  injection H as _ _ Hx Hy Hw Hh Hl.
  apply px_text in Hx, Hy, Hw, Hh.
  destruct b1, b2; cbn in *. now subst.
Qed.

Lemma map_from_annotation_inj (g : string -> string) (a1 : list Box.t) :
  forall (a2 : list Box.t) (k1 k2 : nat),
    map_from (annotation_node g) k1 a1 = map_from (annotation_node g) k2 a2 ->
    a1 = a2.
Proof.
  induction a1 as [|b1 a1 IH]; intros [|b2 a2] k1 k2 H; cbn [map_from] in H;
    try discriminate; [reflexivity|].
  pose proof (f_equal (hd (annotation_node g b1 k1)) H) as Hn.
  pose proof (f_equal (@tl _) H) as Hr. cbn [hd tl] in Hn, Hr. f_equal.
  - exact (annotation_node_inj g _ _ _ _ Hn).
  - exact (IH _ _ _ Hr).
Qed.

Lemma filter_keyed_annotations (g : string -> string) (a : list Box.t) (k : nat) :
  filter keyed (map_from (annotation_node g) k a) = map_from (annotation_node g) k a.
Proof.
  revert k. induction a as [|b a IH]; intros k; [reflexivity|].
  cbn. now rewrite IH.
Qed.

Lemma filter_keyed_image (src : option string) : filter keyed (image_nodes src) = [].
Proof. destruct src as [[|c r]|]; reflexivity. Qed.

Lemma filter_keyed_drawing (d : bool) (cb : option Box.t) (l : string) :
  filter keyed (drawing_nodes d cb l) = [].
Proof. destruct d, cb; reflexivity. Qed.

Lemma map_from_snoc (g : string -> string) (a : list Box.t) (b : Box.t) (k : nat) :
  map_from (annotation_node g) k (a ++ [b])
  = map_from (annotation_node g) k a ++ [annotation_node g b (k + List.length a)].
Proof.
  revert k. induction a as [|b0 a IH]; intros k; cbn.
  - now rewrite Nat.add_0_r.
  - rewrite IH. now rewrite Nat.add_succ_r.
Qed.

(** X14.  In both versions the workspace shows the annotation list
    without loss: two states whose workspaces render the same elements
    have the same annotation list, box by box in the same order, with the
    same positions, signed sizes and labels. *)
Theorem workspace_shows_the_list :
  (forall s1 s2 : AppHistory.State,
      history_workspace s1 = history_workspace s2 ->
      AppHistory.annotations s1 = AppHistory.annotations s2) /\
  (forall s1 s2 : App.State,
      plain_workspace s1 = plain_workspace s2 ->
      App.annotations s1 = App.annotations s2).
Proof.
  split; intros s1 s2 H; apply (f_equal (filter keyed)) in H.
  - unfold history_workspace in H.
    rewrite !filter_app, !filter_keyed_image, !filter_keyed_drawing,
      !filter_keyed_annotations, !app_nil_r in H.
    exact (map_from_annotation_inj _ _ _ _ _ H).
  - unfold plain_workspace in H.
    rewrite !filter_app, !filter_keyed_image, !filter_keyed_drawing,
      !filter_keyed_annotations, !app_nil_r in H.
    exact (map_from_annotation_inj _ _ _ _ _ H).
Qed.

Lemma workspace_shows_the_list_witness :
  AppHistory.annotations (AppHistory.setRedoStack [[box2]] two_commits)
  = AppHistory.annotations two_commits /\
  App.annotations (App.setCurrentLabel "t" (forget two_commits))
  = App.annotations (forget two_commits).
Proof.
  split.
  - apply (proj1 workspace_shows_the_list). reflexivity.
  - apply (proj2 workspace_shows_the_list). reflexivity.
Defined.

(** X15.  In both versions the box being drawn is captioned with the
    selected label, not with its own: when a label is selected after the
    last move of a drag, the workspace shows the draft under the new
    label, and on release shows the committed box, at the end of the list,
    under the label selected at the move. *)
Theorem draft_caption_is_selected_label :
  (forall (s : AppHistory.State) (e : MouseEvent) (l : string),
      AppHistory.isDrawing s = true ->
      let drawn := newBox (AppHistory.startPos s) e (AppHistory.currentLabel s) in
      let relabelled := AppHistory.handleLabelChange l (AppHistory.handleMouseMove e s) in
      In (drawing_node drawn l) (history_workspace relabelled) /\
      In (annotation_node AppHistory.getColorForLabel drawn
            (List.length (AppHistory.annotations s)))
         (history_workspace (AppHistory.handleMouseUp relabelled))) /\
  (forall (s : App.State) (e : MouseEvent) (l : string),
      App.isDrawing s = true ->
      let drawn := newBox (App.startPos s) e (App.currentLabel s) in
      let relabelled := App.handleLabelChange l (App.handleMouseMove e s) in
      In (drawing_node drawn l) (plain_workspace relabelled) /\
      In (annotation_node App.getColorForLabel drawn (List.length (App.annotations s)))
         (plain_workspace (App.handleMouseUp relabelled))).
Proof.
  split; intros s e l Hd drawn relabelled; subst drawn relabelled.
  - unfold AppHistory.handleMouseMove. rewrite Hd. cbn [negb]. split.
    + unfold history_workspace. cbn. rewrite Hd.
      apply in_or_app. right. apply in_or_app. right. now left.
    + erewrite handleMouseUp_commits; [|exact Hd|reflexivity].
      unfold history_workspace. cbn -[image_nodes map_from annotation_node].
      apply in_or_app. right. apply in_or_app. left.
      rewrite map_from_snoc. apply in_or_app. right. now left.
  - unfold App.handleMouseMove. rewrite Hd. cbn [negb]. split.
    + unfold plain_workspace. cbn. rewrite Hd.
      apply in_or_app. right. apply in_or_app. right. now left.
    + erewrite plain_handleMouseUp_commits; [|exact Hd|reflexivity].
      unfold plain_workspace. cbn -[image_nodes map_from annotation_node].
      apply in_or_app. right. apply in_or_app. left.
      rewrite map_from_snoc. apply in_or_app. right. now left.
Qed.

Lemma draft_caption_is_selected_label_witness :
  In (drawing_node (Box.mk 5 5 20 30 "b") "t")
     (history_workspace
        (AppHistory.handleLabelChange "t" (AppHistory.handleMouseMove (at_ 25 35) pressed))) /\
  In (drawing_node (Box.mk 5 5 20 30 "b") "t")
     (plain_workspace
        (App.handleLabelChange "t" (App.handleMouseMove (at_ 25 35) plain_pressed))).
Proof.
  split.
  - apply (proj1 draft_caption_is_selected_label pressed (at_ 25 35) "t"). reflexivity.
  - apply (proj2 draft_caption_is_selected_label plain_pressed (at_ 25 35) "t"). reflexivity.
Defined.

(** ** The downloaded text *)

Lemma read_unit_quote_unit (c : ascii) (r : string) :
  read_unit (quote_unit c ++ r) = Some (c, r).
Proof. destruct c as [[] [] [] [] [] [] [] []]; reflexivity. Qed.

Lemma read_encoded_encode_unit (c : ascii) (r : string) :
  read_encoded (encode_unit c ++ r) = Some (c, r).
Proof. destruct c as [[] [] [] [] [] [] [] []]; reflexivity. Qed.

Lemma quote_units_end (s1 : string) :
  forall (s2 r1 r2 : string),
    (quote_units s1 ++ String double_quote r1
     = quote_units s2 ++ String double_quote r2)%string ->
    s1 = s2 /\ r1 = r2.
Proof.
  induction s1 as [|c1 s1 IH]; intros [|c2 s2] r1 r2 H; cbn [quote_units] in H.
  - cbn in H. injection H as H. now split.
  - apply (f_equal read_unit) in H. rewrite append_assoc, read_unit_quote_unit in H.
    discriminate H.
  - apply (f_equal read_unit) in H. rewrite append_assoc, read_unit_quote_unit in H.
    discriminate H.
  - apply (f_equal read_unit) in H.
    rewrite !append_assoc, !read_unit_quote_unit in H.
    injection H as Hc H. destruct (IH _ _ _ H) as [Hs Hr]. now subst.
Qed.

Lemma box_text_end (b1 b2 : Box.t) (r1 r2 : string) :
  (box_text b1 ++ r1 = box_text b2 ++ r2)%string -> b1 = b2 /\ r1 = r2.
Proof.
  intros H. unfold box_text, json_of_box, QuoteJSONString in H.
  cbn -[toString] in H.
  repeat (progress (rewrite ?append_assoc in H; cbn -[toString] in H)).
  repeat (injection H as H).
  apply number_text_ends in H as [Hx H]; [|reflexivity|reflexivity].
  repeat (injection H as H).
  apply number_text_ends in H as [Hy H]; [|reflexivity|reflexivity].
  repeat (injection H as H).
  apply number_text_ends in H as [Hw H]; [|reflexivity|reflexivity].
  repeat (injection H as H).
  apply number_text_ends in H as [Hh H]; [|reflexivity|reflexivity].
  repeat (injection H as H).
  apply quote_units_end in H as [Hl H].
  repeat (injection H as H).
  split; [|exact H]. destruct b1, b2; cbn in *. now subst.
Qed.

Lemma object_text (filename : string) (v : json) :
  JSON_stringify (JObject [("filename", JString filename); ("annotations", v)])
  = document_text filename (SerializeJSONProperty "  " v).
Proof.
  unfold JSON_stringify.
  change (SerializeJSONProperty "" (JObject [("filename", JString filename); ("annotations", v)]))
    with ("{" ++ String line_feed "  "
              ++ ((QuoteJSONString "filename" ++ ": " ++ QuoteJSONString filename)
                    ++ ("," ++ String line_feed "  ")
                    ++ (QuoteJSONString "annotations" ++ ": " ++ SerializeJSONProperty "  " v))
              ++ String line_feed "}")%string.
  unfold QuoteJSONString.
  cbn [append]. rewrite !append_assoc. cbn [append]. rewrite !append_assoc.
  reflexivity.
Qed.

Lemma array_text (l : list Box.t) :
  l <> [] ->
  SerializeJSONProperty "  " (JArray (map json_of_box l))
  = ("[" ++ String line_feed "    "
         ++ String.concat box_separator (map box_text l)
         ++ String line_feed "  ]")%string.
Proof.
  intros Hne. destruct l as [|b l]; [contradiction|].
  change (map box_text (b :: l))
    with (map (fun b => SerializeJSONProperty "    " (json_of_box b)) (b :: l)).
  rewrite <- (map_map json_of_box (SerializeJSONProperty "    ")).
  reflexivity.
Qed.

Lemma items_end (l1 : list Box.t) :
  forall (l2 : list Box.t) (r1 r2 : string),
    l1 <> [] -> l2 <> [] ->
    (String.concat box_separator (map box_text l1) ++ String line_feed r1
     = String.concat box_separator (map box_text l2) ++ String line_feed r2)%string ->
    l1 = l2 /\ r1 = r2.
Proof.
  induction l1 as [|b1 l1 IH]; intros l2 r1 r2 H1 H2 H; [contradiction|].
  destruct l2 as [|b2 l2]; [contradiction|].
  destruct l1 as [|c1 l1], l2 as [|c2 l2]; cbn [map String.concat] in H;
    rewrite ?append_assoc in H; apply box_text_end in H as [Hb H]; subst b2.
  - injection H as H. now subst.
  - discriminate H.
  - discriminate H.
  - apply append_inv_head in H.
    destruct (IH (c2 :: l2) r1 r2) as [Hl Hr]; [discriminate|discriminate|exact H|].
    split; [now rewrite Hl | exact Hr].
Qed.

Lemma array_text_inj (l1 l2 : list Box.t) (r1 r2 : string) :
  (SerializeJSONProperty "  " (JArray (map json_of_box l1)) ++ String line_feed r1
   = SerializeJSONProperty "  " (JArray (map json_of_box l2)) ++ String line_feed r2)%string ->
  l1 = l2.
Proof.
  destruct l1 as [|b1 l1], l2 as [|b2 l2]; intros H.
  - reflexivity.
  - rewrite (array_text (b2 :: l2)) in H by discriminate. discriminate H.
  - rewrite (array_text (b1 :: l1)) in H by discriminate. discriminate H.
  - rewrite (array_text (b1 :: l1)), (array_text (b2 :: l2)) in H by discriminate.
    rewrite !append_assoc in H.
    apply (append_inv_head "[") in H.
    apply (append_inv_head (String line_feed "    ")) in H.
    apply (items_end (b1 :: l1) (b2 :: l2) ("  ]" ++ String line_feed r1)
             ("  ]" ++ String line_feed r2)) in H as [Hl _];
      [exact Hl | discriminate | discriminate].
Qed.

Lemma JSON_stringify_inj (d1 d2 : AnnotationData.t) :
  JSON_stringify (json_of_annotationData d1) = JSON_stringify (json_of_annotationData d2) ->
  d1 = d2.
Proof.
  unfold json_of_annotationData. rewrite !object_text.
  unfold document_text, QuoteJSONString. intros H.
  repeat (progress (rewrite ?append_assoc in H; cbn -[SerializeJSONProperty] in H)).
  repeat (injection H as H).
  apply quote_units_end in H as [Hf H].
  repeat (injection H as H).
  apply array_text_inj in H.
  destruct d1, d2; cbn in *. now subst.
Qed.

Lemma encodeURIComponent_inj (s1 : string) :
  forall s2 : string, encodeURIComponent s1 = encodeURIComponent s2 -> s1 = s2.
Proof.
  induction s1 as [|c1 s1 IH]; intros [|c2 s2] H; cbn [encodeURIComponent] in H.
  - reflexivity.
  - apply (f_equal read_encoded) in H. rewrite read_encoded_encode_unit in H.
    discriminate H.
  - apply (f_equal read_encoded) in H. rewrite read_encoded_encode_unit in H.
    discriminate H.
  - apply (f_equal read_encoded) in H. rewrite !read_encoded_encode_unit in H.
    injection H as Hc H. now rewrite Hc, (IH _ H).
Qed.

(** X16.  The link of the download determines the document: two documents
    with the same link have the same file name and the same boxes, with
    their positions, signed sizes and labels, whatever characters the
    labels hold; so in both versions two states with the same link have
    the same annotation list. *)
Theorem download_link_determines_the_list :
  (forall d1 d2 : AnnotationData.t,
      href (downloadAnchor d1) = href (downloadAnchor d2) -> d1 = d2) /\
  (forall s1 s2 : AppHistory.State,
      href (downloadAnchor (AppHistory.handleDownload s1))
      = href (downloadAnchor (AppHistory.handleDownload s2)) ->
      AppHistory.annotations s1 = AppHistory.annotations s2) /\
  (forall s1 s2 : App.State,
      href (downloadAnchor (App.handleDownload s1))
      = href (downloadAnchor (App.handleDownload s2)) ->
      App.annotations s1 = App.annotations s2).
Proof.
  assert (Hdoc : forall d1 d2 : AnnotationData.t,
             href (downloadAnchor d1) = href (downloadAnchor d2) -> d1 = d2).
  { intros d1 d2 H. cbn [href downloadAnchor] in H. unfold dataStr in H.
    apply append_inv_head in H. apply encodeURIComponent_inj in H.
    now apply JSON_stringify_inj. }
  split; [exact Hdoc|]. split; intros s1 s2 H; apply Hdoc in H.
  - now injection H.
  - now injection H.
Qed.

Lemma download_link_determines_the_list_witness :
  AppHistory.annotations (AppHistory.setCurrentLabel "t" two_commits)
  = AppHistory.annotations two_commits /\
  AnnotationData.mk "annotated_image.jpg" [awkward_box]
  = AnnotationData.mk "annotated_image.jpg" [awkward_box].
Proof.
  split.
  - apply (proj1 (proj2 download_link_determines_the_list)). vm_compute. reflexivity.
  - apply (proj1 download_link_determines_the_list). vm_compute. reflexivity.
Defined.

Lemma encodeURIComponent_safe (s : string) :
  forallb link_safe (list_ascii_of_string (encodeURIComponent s)) = true.
Proof.
  induction s as [|c s IH]; [reflexivity|]. cbn [encodeURIComponent].
  assert (Happ : forall a b, list_ascii_of_string (a ++ b)
                             = list_ascii_of_string a ++ list_ascii_of_string b).
  { intros a b. induction a as [|ch a IHa]; cbn; [reflexivity|now rewrite IHa]. }
  rewrite Happ, forallb_app, IH, andb_true_r.
  destruct c as [[] [] [] [] [] [] [] []]; reflexivity.
Qed.

(** X17.  The link of the download is the fixed prefix
    [data:text/json;charset=utf-8,] followed by the encoded text, in which
    every character is a letter, a digit, one of [- _ . ! ~ * ' ( )] or a
    percent sign: no space, quote, brace or line break of the document
    appears in it as such. *)
Theorem download_link_is_safe (d : AnnotationData.t) :
  exists body : string,
    href (downloadAnchor d) = ("data:text/json;charset=utf-8," ++ body)%string /\
    forallb link_safe (list_ascii_of_string body) = true.
Proof.
  exists (encodeURIComponent (JSON_stringify (json_of_annotationData d))).
  split; [reflexivity|apply encodeURIComponent_safe].
Qed.

(** ** More on the two versions and on gestures *)

(** X18.  On the events the two versions share, the version with history
    does what the plain one does: after the same events from the start,
    forgetting the stacks gives the state of the plain version, and the
    two export the same document. *)
Theorem history_version_extends_plain (evs : list App.Event) :
  forget (AppHistory.run (map lift evs) AppHistory.init) = App.run evs App.init /\
  AppHistory.handleDownload (AppHistory.run (map lift evs) AppHistory.init)
  = App.handleDownload (App.run evs App.init).
Proof.
  pose proof (forget_run evs AppHistory.init) as H.
  change (forget AppHistory.init) with App.init in H.
  split; [exact H|]. rewrite <- H. reflexivity.
Qed.



Lemma image_stays_step (s : AppHistory.State) (ev : AppHistory.Event) :
  truthy_string (AppHistory.imageSrc s) = true ->
  truthy_string (AppHistory.imageSrc (AppHistory.step s ev)) = true.
Proof.
  intros Himg.
  destruct ev as [files|file|e|e| |value|key ctrlKey| |]; cbn [AppHistory.step].
  - now destruct files.
  - reflexivity.
  - unfold AppHistory.handleMouseDown. now rewrite Himg.
  - unfold AppHistory.handleMouseMove. now destruct (AppHistory.isDrawing s).
  - unfold AppHistory.handleMouseUp.
    now destruct (AppHistory.isDrawing s), (AppHistory.currentBox s).
  - exact Himg.
  - destruct (handleKeyDown_cases key ctrlKey s) as [[l Hl]|[_ [Hk|Hk]]].
    + now rewrite Hl.
    + rewrite Hk. now rewrite (proj1 (handleUndo_tracker s)).
    + rewrite Hk. now rewrite (proj1 (handleRedo_tracker s)).
  - now rewrite (proj1 (handleUndo_tracker s)).
  - now rewrite (proj1 (handleRedo_tracker s)).
Qed.

(** X20.  Whatever file the reader has finished, of any type and name,
    counts as a loaded image from then on: no later event unloads it, and
    after any further events a press starts a drag at the pressed point. *)
Theorem any_file_enables_drawing (f : File) (s : AppHistory.State)
  (evs : list AppHistory.Event) (e : MouseEvent) :
  let later := AppHistory.run evs (AppHistory.onload f s) in
  truthy_string (AppHistory.imageSrc later) = true /\
  AppHistory.isDrawing (AppHistory.handleMouseDown e later) = true /\
  AppHistory.startPos (AppHistory.handleMouseDown e later)
  = Pos.mk (offsetX e) (offsetY e).
Proof.
  intros later.
  assert (Himg : truthy_string (AppHistory.imageSrc later) = true).
  { apply (history_run_invariant
             (fun s => truthy_string (AppHistory.imageSrc s) = true));
      [exact image_stays_step | reflexivity]. }
  split; [exact Himg|].
  unfold AppHistory.handleMouseDown. rewrite Himg. now split.
Qed.
